(** * IN_EPIC_Reports: aggregation of test results per Epic and its report

    A shallow embedding of [TestAutomationAnalyzer]
    (src/EPIC Allure Coverage/IN_EPIC_Reports_v7.py, with the older
    IN_EPIC_Reports_v5.py where a property is about it) and the properties
    of its aggregation, classification and report tables.

    Modelling conventions.
    - A pandas DataFrame is the list of its rows, in row order; a row is a
      record of its columns.
    - An integer column holds mathematical integers ([Z]). pandas stores
      int64 and wraps silently: module [Machine] has the wrapping sums, and
      the properties that depend on the size of a sum assume that the
      counts of the input add up to less than 2^63 ([sums_fit_int64]).
    - A float is [NaN], an infinity, or a finite value held as an exact
      rational: the code's [x / y * 100] and [round(2)] are computed exactly,
      the rounding error of binary64 is not modelled. Modules [Binary64],
      [Machine] and [Widths] hold the same operations on machine floats;
      what depends on how a rate is rounded is stated over them.
    - A missing cell of the CSV (pandas NaN in an object column) is [None]. *)

From Stdlib Require Import List String Ascii ZArith QArith Bool Lia.
From Stdlib Require Import Floats.
From Stdlib Require Uint63.
From Stdlib Require Import Permutation Sorted OrderedTypeEx RelationClasses.
Import ListNotations.
Open Scope string_scope.
Open Scope Z_scope.

(** ** Floats *)

Inductive float : Type :=
| NaN
| NInf
| Fin (q : Q)
| PInf.

(** [float(n)] of an integer. *)
Definition of_int (n : Z) : float := Fin (inject_Z n).

(** [x / y] on floats, as numpy divides: 0/0 is NaN, x/0 an infinity.
    The code only divides two integer columns, so both operands are
    finite; the other cases are not needed and are left as NaN. *)
Definition fdiv (x y : float) : float :=
  match x, y with
  | Fin a, Fin b =>
      if Qeq_bool b 0 then
        (if Qeq_bool a 0 then NaN
         else if Qle_bool 0 a then PInf else NInf)
      else Fin (Qred (a / b))
  | _, _ => NaN
  end.

(** [x * y] on floats; only a finite positive right factor is used. *)
Definition fmul (x y : float) : float :=
  match x, y with
  | Fin a, Fin b => Fin (Qred (a * b))
  | NaN, _ | _, NaN => NaN
  | PInf, Fin b => if Qle_bool b 0 then (if Qeq_bool b 0 then NaN else NInf) else PInf
  | NInf, Fin b => if Qle_bool b 0 then (if Qeq_bool b 0 then NaN else PInf) else NInf
  | Fin a, PInf => if Qle_bool a 0 then (if Qeq_bool a 0 then NaN else NInf) else PInf
  | Fin a, NInf => if Qle_bool a 0 then (if Qeq_bool a 0 then NaN else PInf) else NInf
  | PInf, PInf | NInf, NInf => PInf
  | PInf, NInf | NInf, PInf => NInf
  end.

(** [rint]: the nearest integer, a tie going to the even one. *)
Definition rint (q : Q) : Z :=
  let n := Qnum q in
  let d := Zpos (Qden q) in
  let fl := n / d in
  match (2 * (n mod d)) ?= d with
  | Lt => fl
  | Gt => fl + 1
  | Eq => if Z.even fl then fl else fl + 1
  end.

(** [Series.round(2)]: numpy scales by 100, takes [rint], scales back. *)
Definition round2 (x : float) : float :=
  match x with
  | Fin q => Fin (Qred (inject_Z (rint (q * 100)) / 100))
  | other => other
  end.

(** [x >= y]; false as soon as one side is NaN. *)
Definition fge (x y : float) : bool :=
  match x, y with
  | NaN, _ | _, NaN => false
  | PInf, _ => true
  | _, NInf => true
  | NInf, _ => false
  | _, PInf => false
  | Fin a, Fin b => Qle_bool b a
  end.

(** ** _determine_status *)

Definition Acceptable : string := "Acceptable".
Definition Maintenance_Advised : string := "Maintenance Advised".
Definition Review_Required : string := "Review Required".

Definition _determine_status (pass_rate : float) : string :=
  if fge pass_rate (of_int 95) then Acceptable
  else if fge pass_rate (of_int 80) then Maintenance_Advised
  else Review_Required.

(** ** The input table *)

(** One row of the CSV read by [pd.read_csv]. *)
Record TestRecord : Type := mkTestRecord {
  Epic : option string;
  Feature : option string;
  Story : option string;
  PASSED : Z;
  FAILED : Z;
  BROKEN : Z;
  SKIPPED : Z;
  UNKNOWN : Z
}.

Definition isna {A : Type} (c : option A) : bool :=
  match c with None => true | Some _ => false end.

Definition notna {A : Type} (c : option A) : bool := negb (isna c).

(** [Series.sum()] of an integer column. *)
Definition col_sum {A : Type} (col : A -> Z) (rows : list A) : Z :=
  fold_right (fun r acc => col r + acc) 0 rows.

(** ** Stable sorting *)

Section StableSort.
Variable A : Type.
Variable le : A -> A -> bool.

(** [x] goes in front of the first element it is not greater than, so
    that rows with equal keys keep their order. *)
Fixpoint insert_sorted (x : A) (l : list A) : list A :=
  match l with
  | [] => [x]
  | y :: t => if le x y then x :: y :: t else y :: insert_sorted x t
  end.

Definition stable_sort (l : list A) : list A :=
  fold_right insert_sorted [] l.
End StableSort.

Arguments insert_sorted {A} le x l.
Arguments stable_sort {A} le l.

(** ** groupby(...).agg('sum').reset_index() *)

(** The group keys: the distinct non-missing key values, sorted. *)
Definition present_keys (key : TestRecord -> option string)
    (rows : list TestRecord) : list string :=
  flat_map (fun r => match key r with Some k => [k] | None => [] end) rows.

Definition group_keys (key : TestRecord -> option string)
    (rows : list TestRecord) : list string :=
  stable_sort String.leb (nodup string_dec (present_keys key rows)).

Definition has_key (key : TestRecord -> option string) (k : string)
    (r : TestRecord) : bool :=
  match key r with Some k' => String.eqb k' k | None => false end.

(** The rows of one group. *)
Definition group_of (key : TestRecord -> option string) (k : string)
    (rows : list TestRecord) : list TestRecord :=
  filter (has_key key k) rows.

(** A row of summed outcome columns. *)
Record Sums : Type := mkSums {
  sEpic : string;
  sPASSED : Z;
  sFAILED : Z;
  sBROKEN : Z;
  sSKIPPED : Z
}.

Definition sum_rows (k : string) (g : list TestRecord) : Sums :=
  mkSums k (col_sum PASSED g) (col_sum FAILED g) (col_sum BROKEN g)
    (col_sum SKIPPED g).

Definition groupby_sum (key : TestRecord -> option string)
    (rows : list TestRecord) : list Sums :=
  map (fun k => sum_rows k (group_of key k rows)) (group_keys key rows).

(** ** _consolidate_epics (IN_EPIC_Reports_v7.py) *)

Definition is_epic_row (r : TestRecord) : bool := notna (Epic r).

Definition is_story_only_row (r : TestRecord) : bool :=
  isna (Epic r) && isna (Feature r) && notna (Story r).

Definition is_untagged_row (r : TestRecord) : bool :=
  isna (Epic r) && isna (Feature r) && isna (Story r).

Definition epic_rows (df : list TestRecord) := filter is_epic_row df.
Definition story_only_rows (df : list TestRecord) := filter is_story_only_row df.
Definition untagged_rows (df : list TestRecord) := filter is_untagged_row df.

Definition consolidated_epics (df : list TestRecord) : list Sums :=
  groupby_sum Epic (epic_rows df).

Definition No_EPIC_Tagged : string := " - No EPIC Tagged".
Definition Test_Cases_Not_Tagged : string := "Test Cases Not Tagged".

Definition add_suffix (g : Sums) : Sums :=
  mkSums (sEpic g ++ No_EPIC_Tagged) (sPASSED g) (sFAILED g) (sBROKEN g)
    (sSKIPPED g).

Definition consolidated_stories (df : list TestRecord) : list Sums :=
  map add_suffix (groupby_sum Story (story_only_rows df)).

Definition untagged_summary (df : list TestRecord) : list Sums :=
  [sum_rows Test_Cases_Not_Tagged (untagged_rows df)].

Definition empty {A : Type} (rows : list A) : bool :=
  match rows with [] => true | _ => false end.

(** [pd.concat(consolidated_list, ignore_index=True)]. *)
Definition consolidated_list (df : list TestRecord) : list Sums :=
  consolidated_epics df
  ++ (if empty (story_only_rows df) then [] else consolidated_stories df)
  ++ (if empty (untagged_rows df) then [] else untagged_summary df).

(** A row of the consolidated table. *)
Record Row : Type := mkRow {
  rEpic : string;
  rPASSED : Z;
  rFAILED : Z;
  rBROKEN : Z;
  rSKIPPED : Z;
  totalTests : Z;
  passRate : float;
  status : string
}.

(** [PASSED / totalTests * 100], before rounding. *)
Definition exact_rate (passed total : Z) : float :=
  fmul (fdiv (of_int passed) (of_int total)) (of_int 100).

Definition add_metrics (g : Sums) : Row :=
  let total := sPASSED g + sFAILED g + sBROKEN g + sSKIPPED g in
  let rate := round2 (exact_rate (sPASSED g) total) in
  mkRow (sEpic g) (sPASSED g) (sFAILED g) (sBROKEN g) (sSKIPPED g)
    total rate (_determine_status rate).

(** Descending order of the passRate key, NaN last. *)
Definition rate_before (a b : float) : bool :=
  match a, b with
  | _, NaN => true
  | NaN, _ => false
  | _, _ => fge a b
  end.

(** The order of [sort_values(by=['status', 'passRate'],
    ascending=[True, False])]. *)
Definition row_le (r1 r2 : Row) : bool :=
  match String.compare (status r1) (status r2) with
  | Lt => true
  | Gt => false
  | Eq => rate_before (passRate r1) (passRate r2)
  end.

Definition sort_values (rows : list Row) : list Row :=
  stable_sort row_le rows.

Definition _consolidate_epics (df : list TestRecord) : list Row :=
  sort_values (map add_metrics (consolidated_list df)).

(** ** The report (IN_EPIC_Reports_v7.py) *)

Record TestAutomationAnalyzer : Type := mkAnalyzer {
  df : list TestRecord;
  consolidated_df : list Row
}.

(** [__init__], after [pd.read_csv] has produced the table [csv]. *)
Definition __init__ (csv : list TestRecord) : TestAutomationAnalyzer :=
  mkAnalyzer csv (_consolidate_epics csv).

(** A cell of a DataFrame with mixed columns. *)
Inductive Cell : Type :=
| CStr (s : string)
| CInt (n : Z)
| CFloat (x : float).

Record DataFrame : Type := mkDataFrame {
  columns : list string;
  values : list (list Cell)
}.

Definition consolidated_columns : list string :=
  ["Epic"; "PASSED"; "FAILED"; "BROKEN"; "SKIPPED"; "totalTests";
   "passRate"; "status"].

Definition row_cells (r : Row) : list Cell :=
  [CStr (rEpic r); CInt (rPASSED r); CInt (rFAILED r); CInt (rBROKEN r);
   CInt (rSKIPPED r); CInt (totalTests r); CFloat (passRate r);
   CStr (status r)].

(** The consolidated table as a DataFrame. *)
Definition to_frame (rows : list Row) : DataFrame :=
  mkDataFrame consolidated_columns (map row_cells rows).

(** The one-row frame built from [totals]. *)
Definition totals_row (rows : list Row) : DataFrame :=
  mkDataFrame
    ["Epic"; "PASSED"; "FAILED"; "BROKEN"; "SKIPPED"; "totalTests";
     "passRate"; "status"]
    [[CStr "TOTAL"; CInt (col_sum rPASSED rows); CInt (col_sum rFAILED rows);
      CInt (col_sum rBROKEN rows); CInt (col_sum rSKIPPED rows);
      CInt (col_sum totalTests rows); CStr ""; CStr ""]].

(** [pd.concat([a, b], ignore_index=True)] of two frames with the same
    columns in the same order: the rows of [b] after the rows of [a]. *)
Definition pd_concat (a b : DataFrame) : DataFrame :=
  mkDataFrame (columns a) (values a ++ values b).

Definition final_df (self : TestAutomationAnalyzer) : DataFrame :=
  pd_concat (to_frame (consolidated_df self))
    (totals_row (consolidated_df self)).

Inductive Exception : Type :=
| ValueError (msg : string).

(** The matplotlib table handed to the figure: its cell texts, its column
    labels and the face colour of each data row (widths and fonts are
    left out). *)
Record Table : Type := mkTable {
  cellText : list (list Cell);
  colLabels : list string;
  facecolors : list (option string)
}.

Definition column_labels_v7 : list string :=
  ["Epic"; "Passed"; "Failed"; "Broken"; "Skipped"; "Total Tests";
   "Pass Rate %"; "Status"].

Definition table_colors (s : string) : option string :=
  if String.eqb s "Acceptable" then Some "lightgreen"
  else if String.eqb s "Maintenance Advised" then Some "yellow"
  else if String.eqb s "Review Required" then Some "lightpink"
  else None.

Definition row_color (row : list Cell) : option string :=
  match last row (CStr "") with
  | CStr s => table_colors s
  | _ => None
  end.

(** [generate_epic_summary_table_plot]. The source fixes the labels to
    [column_labels_v7]; they are an argument here. *)
Definition generate_epic_summary_table_plot (column_labels : list string)
    (self : TestAutomationAnalyzer) : Exception + Table :=
  let final := final_df self in
  if negb (Nat.eqb (List.length (columns final)) (List.length column_labels))
  then inl (ValueError "Mismatch between DataFrame columns and column labels")
  else
    let table_data := values final in
    inr (mkTable table_data column_labels
           (map row_color
              (firstn (List.length (consolidated_df self)) table_data))).

(** Output files: what has been written, oldest first. *)
Inductive Artifact : Type :=
| Png (t : Table)
| Xlsx (title : string) (rows : list (list Cell)).

Definition FileSystem : Type := list (string * Artifact).

Definition write (path : string) (a : Artifact) (fs : FileSystem)
  : FileSystem := (fs ++ [(path, a)])%list.

(** [save_epic_summary_table_plot]; [date_suffix] is today's date as
    [strftime('%d%m%y')] gives it. *)
Definition save_epic_summary_table_plot (column_labels : list string)
    (date_suffix : string) (self : TestAutomationAnalyzer)
    (output_path : option string) (fs : FileSystem)
  : option Exception * FileSystem :=
  let output_path :=
    match output_path with
    | Some p => p
    | None => "IH_Epic_Summary_Table_cf_v1-0_" ++ date_suffix ++ ".png"
    end in
  match generate_epic_summary_table_plot column_labels self with
  | inl e => (Some e, fs)
  | inr t => (None, write output_path (Png t) fs)
  end.

(** [dataframe_to_rows(final_df, index=False, header=True)]. *)
Definition dataframe_to_rows (d : DataFrame) : list (list Cell) :=
  map CStr (columns d) :: values d.

Definition sPBI_Report_Source_Path : string :=
  "IH_Epic_ALLURE_Summary_cf_2025.xlsx".

(** [save_epic_summary_to_excel]: the sheet is saved twice. *)
Definition save_epic_summary_to_excel (date_suffix : string)
    (self : TestAutomationAnalyzer) (output_excel_path : option string)
    (fs : FileSystem) : option Exception * FileSystem :=
  let output_excel_path :=
    match output_excel_path with
    | Some p => p
    | None => "IH_Epic_Summary_XL_cf_v1-0_" ++ date_suffix ++ ".xlsx"
    end in
  let wb := Xlsx "EPIC Summary" (dataframe_to_rows (final_df self)) in
  (None, write sPBI_Report_Source_Path wb (write output_excel_path wb fs)).

(** The script body: an exception of the first step ends the run. *)
Definition main (column_labels : list string) (date_suffix : string)
    (csv : list TestRecord) (fs : FileSystem)
  : option Exception * FileSystem :=
  let analyzer := __init__ csv in
  match save_epic_summary_table_plot column_labels date_suffix analyzer
          None fs with
  | (Some e, fs1) => (Some e, fs1)
  | (None, fs1) => save_epic_summary_to_excel date_suffix analyzer None fs1
  end.

(** ** _consolidate_epics (IN_EPIC_Reports_v5.py) *)

Module V5.

Record Row : Type := mkRow {
  rEpic : string;
  rPASSED : Z;
  rFAILED : Z;
  rBROKEN : Z;
  rSKIPPED : Z;
  rUNKNOWN : Z;
  totalTests : Z;
  passRate : float;
  status : string
}.

(** One group of [df.groupby('Epic')] with its sums and metrics; rows
    without an Epic belong to no group. *)
Definition consolidated_row (df : list TestRecord) (k : string) : Row :=
  let g := group_of Epic k df in
  let total := col_sum PASSED g + col_sum FAILED g + col_sum BROKEN g
               + col_sum SKIPPED g + col_sum UNKNOWN g in
  let rate := round2 (exact_rate (col_sum PASSED g) total) in
  mkRow k (col_sum PASSED g) (col_sum FAILED g) (col_sum BROKEN g)
    (col_sum SKIPPED g) (col_sum UNKNOWN g) total rate
    (_determine_status rate).

(** The table before [sort_values(by='status')]. *)
Definition consolidated (df : list TestRecord) : list Row :=
  map (consolidated_row df) (group_keys Epic df).

(** [sort_values(by='status')] sorts with numpy's default quicksort,
    which fixes no order among rows of equal status: a result is any
    arrangement of the rows in ascending status order. *)
Definition _consolidate_epics (df : list TestRecord) (table : list Row)
  : Prop :=
  Permutation table (consolidated df) /\
  Sorted (fun a b => String.leb (status a) (status b) = true) table.

End V5.

(** ** The order of the report *)

(** Descending order of pass rates, the undefined ones last. *)
Definition descending (a b : float) : Prop :=
  match a, b with
  | _, NaN => True
  | NaN, _ => False
  | PInf, _ => True
  | _, NInf => True
  | Fin x, Fin y => (y <= x)%Q
  | _, _ => False
  end.

(** Lexicographic order of strings by character code. *)
Definition string_lt (s1 s2 : string) : Prop := String_as_OT.lt s1 s2.

(** [r1] may come before [r2]: a smaller status label, or the same label
    and a pass rate at least as high. *)
Definition in_report_order (r1 r2 : Row) : Prop :=
  string_lt (status r1) (status r2) \/
  (status r1 = status r2 /\ descending (passRate r1) (passRate r2)).

(** The sum of a list of integers. *)
Definition Zsum (l : list Z) : Z := fold_right Z.add 0 l.

(** The TOTAL row over [rows]: each outcome column and [totalTests]
    summed, passRate and status blank. *)
Definition TOTAL (rows : list Row) : list Cell :=
  [CStr "TOTAL"; CInt (Zsum (map rPASSED rows)); CInt (Zsum (map rFAILED rows));
   CInt (Zsum (map rBROKEN rows)); CInt (Zsum (map rSKIPPED rows));
   CInt (Zsum (map totalTests rows)); CStr ""; CStr ""].

Definition column_labels_v5 : list string :=
  ["Epic"; "Passed"; "Failed"; "Broken"; "Skipped"; "Unknown"; "Total Tests";
   "Pass Rate %"; "Status"].

(** ** Groups of records *)

(** The three kinds of group of the aggregation. *)
Inductive Group : Type :=
| ByEpic (e : string)
| ByStory (s : string)
| Untagged.

(** The key of the row of a group. *)
Definition group_label (G : Group) : string :=
  match G with
  | ByEpic e => e
  | ByStory s => s ++ " - No EPIC Tagged"
  | Untagged => "Test Cases Not Tagged"
  end.

(** [r] falls under the rule of group [G]: it has the Epic; or no Epic and
    no Feature but the Story; or none of the three. *)
Definition in_group (r : TestRecord) (G : Group) : Prop :=
  match G with
  | ByEpic e => Epic r = Some e
  | ByStory s => Epic r = None /\ Feature r = None /\ Story r = Some s
  | Untagged => Epic r = None /\ Feature r = None /\ Story r = None
  end.

(** The outcome counts of [row] are the sums over the records [grp]. *)
Definition row_sums (row : Row) (grp : list TestRecord) : Prop :=
  rPASSED row = Zsum (map PASSED grp) /\
  rFAILED row = Zsum (map FAILED grp) /\
  rBROKEN row = Zsum (map BROKEN grp) /\
  rSKIPPED row = Zsum (map SKIPPED grp).

(** [row] is the row of the group [fst part] and counts the records
    [snd part]; a record that falls under one of the three rules sits in the
    row of its rule. *)
Definition row_of_part (row : Row) (part : Group * list TestRecord) : Prop :=
  rEpic row = group_label (fst part) /\
  snd part <> [] /\
  (forall r, In r (snd part) ->
             (exists G, in_group r G) -> in_group r (fst part)) /\
  row_sums row (snd part).

(** Every record of [records] is counted in exactly one row of [table]:
    the records split into one part per row, no two rows stand for the same
    group, and each row sums its part. *)
Definition each_record_in_one_row (records : list TestRecord)
    (table : list Row) : Prop :=
  exists parts : list (Group * list TestRecord),
    Permutation (List.concat (map snd parts)) records /\
    NoDup (map fst parts) /\
    Forall2 row_of_part table parts.

(** The records selected by one of the three filters of the aggregation. *)
Definition selected (r : TestRecord) : bool :=
  is_epic_row r || is_story_only_row r || is_untagged_row r.

(** ** The rate in binary64 *)

(** The float operations of the code on machine floats, to evaluate the
    rate of given counts as pandas computes it. [rint] uses the 2^52
    shift, exact below 2^52 in round-to-nearest-even; [of_int] is exact for
    counts below 2^53. *)
Module Binary64.

Definition of_int (n : Z) : PrimFloat.float :=
  if n <? 0 then PrimFloat.opp (PrimFloat.of_uint63 (Uint63.of_Z (- n)))
  else PrimFloat.of_uint63 (Uint63.of_Z n).

Definition rint (x : PrimFloat.float) : PrimFloat.float :=
  let big := 4503599627370496%float in
  if PrimFloat.ltb (PrimFloat.abs x) big then
    if PrimFloat.ltb x 0%float
    then PrimFloat.opp
           (PrimFloat.sub (PrimFloat.add (PrimFloat.opp x) big) big)
    else PrimFloat.sub (PrimFloat.add x big) big
  else x.

Definition round2 (x : PrimFloat.float) : PrimFloat.float :=
  PrimFloat.div (rint (PrimFloat.mul x 100%float)) 100%float.

Definition passRate (passed total : Z) : PrimFloat.float :=
  round2 (PrimFloat.mul (PrimFloat.div (of_int passed) (of_int total))
            100%float).

Definition _determine_status (pass_rate : PrimFloat.float) : string :=
  if PrimFloat.leb 95%float pass_rate then "Acceptable"
  else if PrimFloat.leb 80%float pass_rate then "Maintenance Advised"
  else "Review Required".

End Binary64.

(** ** Machine integers *)

(** pandas holds the count columns as int64 and adds them with silent
    wrap-around; [Machine] has these sums and the metrics of one row as the
    machine computes them. *)
Module Machine.

(** The int64 that the integer [z] wraps to. *)
Definition wrap64 (z : Z) : Z := (z + 2 ^ 63) mod 2 ^ 64 - 2 ^ 63.

(** [Series.sum()] of an int64 column. *)
Definition col_sum {A : Type} (col : A -> Z) (rows : list A) : Z :=
  fold_left (fun acc r => wrap64 (acc + col r)) rows 0.

(** [sum(axis=1)] over the int64 cells of one row. *)
Definition sum_axis1 (cells : list Z) : Z :=
  fold_left (fun acc x => wrap64 (acc + x)) cells 0.

(** totalTests, passRate and status of a row with the given sums, as lines
    68 to 70 compute them: the total in int64, the rate in binary64. *)
Definition metrics (passed failed broken skipped : Z)
  : Z * PrimFloat.float * string :=
  let total := sum_axis1 [passed; failed; broken; skipped] in
  let rate := Binary64.passRate passed total in
  (total, rate, Binary64._determine_status rate).

End Machine.

(** The counts of the input, all columns together, stay below 2^63: with
    non-negative counts no int64 sum of the aggregation wraps. *)
Definition sums_fit_int64 (df : list TestRecord) : Prop :=
  col_sum (fun r => PASSED r + FAILED r + BROKEN r + SKIPPED r + UNKNOWN r)
    df < 2 ^ 63.

(** ** Well-formed input *)

(** The outcome counts of a record are not negative. *)
Definition counts_nonneg (r : TestRecord) : Prop :=
  0 <= PASSED r /\ 0 <= FAILED r /\ 0 <= BROKEN r /\ 0 <= SKIPPED r /\
  0 <= UNKNOWN r.

(** The parts behind the rows of [consolidated_list], in its order. *)
Definition parts_of (df : list TestRecord) : list (Group * list TestRecord) :=
  (map (fun k => (ByEpic k, group_of Epic k (epic_rows df)))
       (group_keys Epic (epic_rows df))
   ++ map (fun k => (ByStory k, group_of Story k (story_only_rows df)))
        (group_keys Story (story_only_rows df))
   ++ (if empty (untagged_rows df) then []
       else [(Untagged, untagged_rows df)]))%list.

(** [g] is the row of sums of the group [fst part] over the records
    [snd part]. *)
Definition sums_of_part (g : Sums) (part : Group * list TestRecord) : Prop :=
  sEpic g = group_label (fst part) /\
  snd part <> [] /\
  (forall r, In r (snd part) -> in_group r (fst part)) /\
  g = sum_rows (sEpic g) (snd part).

(** ** Inputs used below *)

(** The input of the grouping-fallback scenario. *)
Definition fallback_df : list TestRecord :=
  [ mkTestRecord None None (Some "S1") 1 0 0 0 0;
    mkTestRecord None None None 0 1 0 0 0 ].

(** A count below zero, as a malformed export could hold. *)
Definition negative_df : list TestRecord :=
  [ mkTestRecord (Some "Odd") None None 1 (-1) 0 0 0 ].

(** An Epic whose two tests have no recorded outcome. *)
Definition idle_df : list TestRecord :=
  [ mkTestRecord (Some "Idle") None None 0 0 0 0 0;
    mkTestRecord (Some "Idle") (Some "F") (Some "S") 0 0 0 0 0 ].

(** Two Epics, one of them with tests of unknown outcome. *)
Definition mixed_df : list TestRecord :=
  [ mkTestRecord (Some "Billing") (Some "F1") (Some "S1") 1 0 0 0 0;
    mkTestRecord (Some "Billing") (Some "F1") (Some "S2") 0 1 0 0 0;
    mkTestRecord (Some "Login") None None 2 0 0 1 1 ].

(** Two Epics whose exact pass percentages, 94.996 and 79.996, lie just
    below the thresholds. *)
Definition nearly_df : list TestRecord :=
  [ mkTestRecord (Some "Checkout") None None 94996 5004 0 0 0;
    mkTestRecord (Some "Search") None None 79996 20004 0 0 0 ].

(** A tagged Epic, and a test that has a Feature and a Story but no Epic. *)
Definition feature_only_df : list TestRecord :=
  [ mkTestRecord (Some "Payments") None None 1 0 0 0 0;
    mkTestRecord None (Some "Refunds") (Some "Partial refund") 1 0 0 0 0 ].

(** ** Column widths of the image table *)




(** The widths of lines 126 to 147, in binary64. The decimal constants
    0.004, 0.005, 0.3 and 0.05 are written as the floats that Python reads
    them as. *)
Module Widths.









End Widths.

(** ** Reading the written files *)

(** The content of [path]: what was written to it last. *)
Definition read (path : string) (fs : FileSystem) : option Artifact :=
  fold_left (fun found w => if String.eqb (fst w) path then Some (snd w)
                            else found) fs None.

(** ** Row keys *)

(** [s] ends with [suffix]. *)
Definition has_suffix (suffix s : string) : bool :=
  String.eqb
    (substring (String.length s - String.length suffix)
       (String.length suffix) s)
    suffix
  && Nat.leb (String.length suffix) (String.length s).

(** The Epic of [r], if any, cannot be taken for a fallback key. *)
Definition epic_is_plain (r : TestRecord) : bool :=
  match Epic r with
  | Some e => negb (String.eqb e Test_Cases_Not_Tagged)
              && negb (has_suffix No_EPIC_Tagged e)
  | None => true
  end.

(** An Epic named like the fallback key of the Story "S1". *)
Definition clash_df : list TestRecord :=
  [ mkTestRecord (Some "S1 - No EPIC Tagged") None None 1 0 0 0 0;
    mkTestRecord None None (Some "S1") 0 1 0 0 0 ].

(** ** Ties of a sort *)

(** [x] and [y] have the same sort key: each may come before the other. *)
Definition tied {A : Type} (le : A -> A -> bool) (x y : A) : bool :=
  le x y && le y x.

(** ** Status ranks *)

(** The position of a label among the three, best first. *)
Definition status_rank (s : string) : nat :=
  if String.eqb s Acceptable then 0
  else if String.eqb s Maintenance_Advised then 1
  else 2.

(** ** The report of IN_EPIC_Reports_v5.py *)

Module V5Report.

Record TestAutomationAnalyzer : Type := mkAnalyzer {
  df : list TestRecord;
  consolidated_df : list V5.Row
}.

Definition consolidated_columns : list string :=
  ["Epic"; "PASSED"; "FAILED"; "BROKEN"; "SKIPPED"; "UNKNOWN"; "totalTests";
   "passRate"; "status"].

Definition row_cells (r : V5.Row) : list Cell :=
  [CStr (V5.rEpic r); CInt (V5.rPASSED r); CInt (V5.rFAILED r);
   CInt (V5.rBROKEN r); CInt (V5.rSKIPPED r); CInt (V5.rUNKNOWN r);
   CInt (V5.totalTests r); CFloat (V5.passRate r); CStr (V5.status r)].

Definition to_frame (rows : list V5.Row) : DataFrame :=
  mkDataFrame consolidated_columns (map row_cells rows).

Definition totals_row (rows : list V5.Row) : DataFrame :=
  mkDataFrame
    ["Epic"; "PASSED"; "FAILED"; "BROKEN"; "SKIPPED"; "UNKNOWN"; "totalTests";
     "passRate"; "status"]
    [[CStr "TOTAL"; CInt (col_sum V5.rPASSED rows);
      CInt (col_sum V5.rFAILED rows); CInt (col_sum V5.rBROKEN rows);
      CInt (col_sum V5.rSKIPPED rows); CInt (col_sum V5.rUNKNOWN rows);
      CInt (col_sum V5.totalTests rows); CStr ""; CStr ""]].

Definition final_df (self : TestAutomationAnalyzer) : DataFrame :=
  pd_concat (to_frame (consolidated_df self))
    (totals_row (consolidated_df self)).

(** [generate_epic_summary_table_plot] of v5, the labels as an argument. *)
Definition generate_epic_summary_table_plot (column_labels : list string)
    (self : TestAutomationAnalyzer) : Exception + Table :=
  let final := final_df self in
  if negb (Nat.eqb (List.length (columns final)) (List.length column_labels))
  then inl (ValueError "Mismatch between DataFrame columns and column labels")
  else
    let table_data := values final in
    inr (mkTable table_data column_labels
           (map row_color
              (firstn (List.length (consolidated_df self)) table_data))).

Definition save_epic_summary_table_plot (column_labels : list string)
    (self : TestAutomationAnalyzer) (output_path : option string)
    (fs : FileSystem) : option Exception * FileSystem :=
  let output_path :=
    match output_path with
    | Some p => p
    | None => "epic_summary_table.png"
    end in
  match generate_epic_summary_table_plot column_labels self with
  | inl e => (Some e, fs)
  | inr t => (None, write output_path (Png t) fs)
  end.

Definition save_epic_summary_to_excel (self : TestAutomationAnalyzer)
    (output_excel_path : option string) (fs : FileSystem)
  : option Exception * FileSystem :=
  let output_excel_path :=
    match output_excel_path with
    | Some p => p
    | None => "epic_summary.xlsx"
    end in
  (None,
   write output_excel_path
     (Xlsx "EPIC Summary" (dataframe_to_rows (final_df self))) fs).

(** The script body of v5 on an analyzer whose table is [table]. *)
Definition main (column_labels : list string) (csv : list TestRecord)
    (table : list V5.Row) (fs : FileSystem) : option Exception * FileSystem :=
  let analyzer := mkAnalyzer csv table in
  match save_epic_summary_table_plot column_labels analyzer None fs with
  | (Some e, fs1) => (Some e, fs1)
  | (None, fs1) => save_epic_summary_to_excel analyzer None fs1
  end.

End V5Report.

(** A v5 row without its UNKNOWN column. *)
Definition drop_unknown (r : V5.Row) : Row :=
  mkRow (V5.rEpic r) (V5.rPASSED r) (V5.rFAILED r) (V5.rBROKEN r)
    (V5.rSKIPPED r) (V5.totalTests r) (V5.passRate r) (V5.status r).

(** * Properties *)

(** ** Sorting *)

Section StableSortFacts.
Variable A : Type.
Variable le : A -> A -> bool.

Lemma insert_sorted_perm (x : A) (l : list A) :
  Permutation (insert_sorted le x l) (x :: l).
Proof.
  induction l as [|y t IH]; simpl.
  - apply Permutation_refl.
  - destruct (le x y).
    + apply Permutation_refl.
    + apply Permutation_trans with (y :: x :: t).
      * now apply perm_skip.
      * apply perm_swap.
Qed.

Lemma stable_sort_perm (l : list A) : Permutation (stable_sort le l) l.
Proof.
  induction l as [|x t IH]; simpl.
  - apply perm_nil.
  - apply Permutation_trans with (x :: stable_sort le t).
    + apply insert_sorted_perm.
    + now apply perm_skip.
Qed.

Lemma stable_sort_In (x : A) (l : list A) :
  In x (stable_sort le l) <-> In x l.
Proof.
  split; apply Permutation_in.
  - apply stable_sort_perm.
  - apply Permutation_sym, stable_sort_perm.
Qed.

Hypothesis le_total : forall x y, le x y = true \/ le y x = true.

Let before (x y : A) : Prop := le x y = true.

Lemma insert_sorted_HdRel (a x : A) (l : list A) :
  before a x -> HdRel before a l -> HdRel before a (insert_sorted le x l).
Proof.
  intros Hax Hal. destruct l as [|y t]; simpl.
  - now constructor.
  - destruct (le x y); constructor; trivial.
    now inversion Hal.
Qed.

Lemma insert_sorted_Sorted (x : A) (l : list A) :
  Sorted before l -> Sorted before (insert_sorted le x l).
Proof.
  induction 1 as [|y t Ht IH Hy]; simpl.
  - repeat constructor.
  - destruct (le x y) eqn:Hxy.
    + constructor; [now constructor | now constructor].
    + constructor; trivial.
      apply insert_sorted_HdRel; trivial.
      destruct (le_total x y) as [H|H]; [congruence | exact H].
Qed.

Lemma stable_sort_Sorted (l : list A) :
  Sorted (fun x y => le x y = true) (stable_sort le l).
Proof.
  induction l as [|x t IH]; simpl.
  - constructor.
  - now apply insert_sorted_Sorted.
Qed.
End StableSortFacts.

(** ** Floats *)

Lemma fge_Fin (a b : Q) : fge (Fin a) (Fin b) = true <-> (b <= a)%Q.
Proof. simpl. apply Qle_bool_iff. Qed.

Lemma fge_Fin_false (a b : Q) : fge (Fin a) (Fin b) = false <-> (a < b)%Q.
Proof.
  simpl. split; intros H.
  - apply Qnot_le_lt. intros Hle. apply Qle_bool_iff in Hle. congruence.
  - destruct (Qle_bool b a) eqn:E; trivial.
    apply Qle_bool_iff in E. exfalso. exact (Qlt_not_le _ _ H E).
Qed.

Lemma determine_status_Fin (q : Q) :
  ((95 <= q)%Q -> _determine_status (Fin q) = Acceptable) /\
  ((80 <= q)%Q /\ (q < 95)%Q -> _determine_status (Fin q) = Maintenance_Advised) /\
  ((q < 80)%Q -> _determine_status (Fin q) = Review_Required).
Proof.
  unfold _determine_status. cbv [of_int inject_Z]. repeat split.
  - intros H. apply fge_Fin in H. now rewrite H.
  - intros [H1 H2]. apply fge_Fin in H1. apply fge_Fin_false in H2.
    now rewrite H2, H1.
  - intros H.
    assert (H' : (q < 95)%Q) by (apply Qlt_trans with (1 := H); reflexivity).
    apply fge_Fin_false in H, H'. now rewrite H', H.
Qed.

Lemma determine_status_values (x : float) :
  In (_determine_status x) [Acceptable; Maintenance_Advised; Review_Required].
Proof.
  unfold _determine_status.
  destruct (fge x (of_int 95)); [now left|].
  destruct (fge x (of_int 80)); [right; now left | right; right; now left].
Qed.

(** ** Rows of the consolidated table *)

Lemma consolidate_In (df : list TestRecord) (row : Row) :
  In row (_consolidate_epics df) <->
  exists g, In g (consolidated_list df) /\ row = add_metrics g.
Proof.
  unfold _consolidate_epics, sort_values.
  rewrite stable_sort_In, in_map_iff.
  split; intros [g [H1 H2]]; exists g; auto.
Qed.

Lemma consolidate_status (df : list TestRecord) (row : Row) :
  In row (_consolidate_epics df) ->
  status row = _determine_status (passRate row).
Proof.
  intros H. apply consolidate_In in H. destruct H as [g [_ ->]]. reflexivity.
Qed.

(** C1: every row of the consolidated table carries one of the three status
    labels; when its passRate is a number [q], the label is Acceptable for
    [95 <= q], Maintenance Advised for [80 <= q < 95] and Review Required
    for [q < 80]; at the boundaries, 95 is Acceptable, 80 is Maintenance
    Advised and 79.99 is Review Required. *)
Theorem status_by_thresholds (df : list TestRecord) (row : Row) (q : Q) :
  In row (_consolidate_epics df) ->
  passRate row = Fin q ->
  In (status row) [Acceptable; Maintenance_Advised; Review_Required] /\
  ((95 <= q)%Q -> status row = Acceptable) /\
  ((80 <= q)%Q /\ (q < 95)%Q -> status row = Maintenance_Advised) /\
  ((q < 80)%Q -> status row = Review_Required) /\
  _determine_status (Fin 95) = Acceptable /\
  _determine_status (Fin 80) = Maintenance_Advised /\
  _determine_status (Fin (7999 # 100)) = Review_Required.
Proof.
  intros Hin Hq. rewrite (consolidate_status df row Hin), Hq.
  split; [apply determine_status_values|].
  destruct (determine_status_Fin q) as (HA & HM & HR).
  repeat split; trivial.
Qed.

Lemma status_by_thresholds_witness :
  In (mkRow "S1 - No EPIC Tagged" 1 0 0 0 1 (Fin 100) Acceptable)
     (_consolidate_epics fallback_df) /\
  status (mkRow "S1 - No EPIC Tagged" 1 0 0 0 1 (Fin 100) Acceptable)
    = Acceptable.
Proof.
  assert (Hin : In (mkRow "S1 - No EPIC Tagged" 1 0 0 0 1 (Fin 100) Acceptable)
                   (_consolidate_epics fallback_df)) by (vm_compute; now left).
  split; [exact Hin|].
  refine (proj1 (proj2 (status_by_thresholds fallback_df _ 100 Hin eq_refl)) _).
  vm_compute. discriminate.
Defined.

(** ** Rounding *)


Lemma inject_Z_nonzero (t : Z) : t <> 0 -> Qeq_bool (inject_Z t) 0 = false.
Proof.
  intros Ht. destruct (Qeq_bool (inject_Z t) 0) eqn:E; trivial.
  apply Qeq_bool_iff in E. unfold Qeq in E. simpl in E. lia.
Qed.


Lemma rate_undefined : round2 (exact_rate 0 0) = NaN.
Proof. reflexivity. Qed.

Lemma determine_status_NaN : _determine_status NaN = Review_Required.
Proof. reflexivity. Qed.

(** ** Sums of non-negative counts *)

Lemma col_sum_nonneg (col : TestRecord -> Z) (rows : list TestRecord) :
  (forall r, In r rows -> 0 <= col r) -> 0 <= col_sum col rows.
Proof.
  induction rows as [|r t IH]; simpl; intros H; [lia|].
  pose proof (H r (or_introl eq_refl)).
  assert (0 <= col_sum col t) by (apply IH; intros; apply H; now right).
  lia.
Qed.

(** Every row of [consolidated_list] sums a part of the input. *)
Lemma consolidated_list_from (df : list TestRecord) (g : Sums) :
  In g (consolidated_list df) ->
  exists grp, incl grp df /\
    sPASSED g = col_sum PASSED grp /\ sFAILED g = col_sum FAILED grp /\
    sBROKEN g = col_sum BROKEN grp /\ sSKIPPED g = col_sum SKIPPED grp.
Proof.
  unfold consolidated_list. rewrite !in_app_iff. intros [H|[H|H]].
  - unfold consolidated_epics, groupby_sum in H. apply in_map_iff in H.
    destruct H as [k [<- _]].
    exists (group_of Epic k (epic_rows df)). split; [|now repeat split].
    intros r Hr. apply filter_In in Hr. destruct Hr as [Hr _].
    apply filter_In in Hr. tauto.
  - destruct (empty (story_only_rows df)); [contradiction|].
    unfold consolidated_stories, groupby_sum in H.
    rewrite map_map in H. apply in_map_iff in H. destruct H as [k [<- _]].
    exists (group_of Story k (story_only_rows df)).
    split; [|now repeat split].
    intros r Hr. apply filter_In in Hr. destruct Hr as [Hr _].
    apply filter_In in Hr. tauto.
  - destruct (empty (untagged_rows df)); [contradiction|].
    destruct H as [<-|[]]. exists (untagged_rows df).
    split; [|now repeat split].
    intros r Hr. apply filter_In in Hr. tauto.
Qed.

Lemma consolidated_list_nonneg (df : list TestRecord) (g : Sums) :
  Forall counts_nonneg df -> In g (consolidated_list df) ->
  0 <= sPASSED g /\ 0 <= sFAILED g /\ 0 <= sBROKEN g /\ 0 <= sSKIPPED g.
Proof.
  intros Hdf Hg. rewrite Forall_forall in Hdf.
  destruct (consolidated_list_from df g Hg) as (grp & Hincl & -> & -> & -> & ->).
  repeat split; apply col_sum_nonneg; intros r Hr;
    destruct (Hdf r (Hincl r Hr)) as (? & ? & ? & ? & ?); assumption.
Qed.

(** C9: on the two records of the grouping-fallback scenario the
    consolidated table has exactly two rows: "S1 - No EPIC Tagged" with
    passRate 100 and status Acceptable, then "Test Cases Not Tagged" with
    passRate 0 and status Review Required. *)
Theorem fallback_scenario :
  _consolidate_epics fallback_df =
  [ mkRow "S1 - No EPIC Tagged" 1 0 0 0 1 (Fin 100) "Acceptable";
    mkRow "Test Cases Not Tagged" 0 1 0 0 1 (Fin 0) "Review Required" ].
Proof. vm_compute. reflexivity. Qed.

(** *** Sums that fit int64 *)

Lemma wrap64_small (z : Z) :
  - 2 ^ 63 <= z < 2 ^ 63 -> Machine.wrap64 z = z.
Proof.
  intros H. unfold Machine.wrap64.
  change (2 ^ 64) with (2 * 2 ^ 63) in *.
  remember (2 ^ 63) as B. rewrite Z.mod_small; lia.
Qed.

Lemma sum_axis1_from (cells : list Z) (acc : Z) :
  Forall (fun x => 0 <= x) cells -> 0 <= acc ->
  acc + Zsum cells < 2 ^ 63 ->
  fold_left (fun acc x => Machine.wrap64 (acc + x)) cells acc
  = acc + Zsum cells.
Proof.
  intros Hc. revert acc. induction Hc as [|x cells Hx Hc IH]; intros acc Ha Hb.
  - simpl. lia.
  - assert (0 <= Zsum cells).
    { clear -Hc. induction Hc; simpl; lia. }
    simpl in *. rewrite wrap64_small by lia. rewrite IH; lia.
Qed.

(** The int64 sum of non-negative cells that add up to less than 2^63 is
    their sum. *)
Lemma sum_axis1_exact (cells : list Z) :
  Forall (fun x => 0 <= x) cells -> Zsum cells < 2 ^ 63 ->
  Machine.sum_axis1 cells = Zsum cells.
Proof.
  intros Hc Hb. unfold Machine.sum_axis1.
  rewrite sum_axis1_from; trivial; lia.
Qed.

Lemma col_sum_map_Zsum (A : Type) (col : A -> Z) (rows : list A) :
  col_sum col rows = Zsum (map col rows).
Proof. induction rows as [|r t IH]; simpl; [reflexivity | now rewrite IH]. Qed.

(** Likewise for an int64 column. *)
Lemma machine_col_sum_exact (A : Type) (col : A -> Z) (rows : list A) :
  (forall r, In r rows -> 0 <= col r) -> col_sum col rows < 2 ^ 63 ->
  Machine.col_sum col rows = col_sum col rows.
Proof.
  intros Hc Hb. unfold Machine.col_sum.
  assert (E : forall acc,
            fold_left (fun acc r => Machine.wrap64 (acc + col r)) rows acc =
            fold_left (fun acc x => Machine.wrap64 (acc + x)) (map col rows) acc).
  { clear. induction rows as [|r t IH]; intros acc; simpl; trivial. }
  rewrite E, col_sum_map_Zsum. rewrite sum_axis1_from; try lia.
  - apply Forall_forall. intros x Hx. apply in_map_iff in Hx.
    destruct Hx as [r [<- Hr]]. now apply Hc.
  - rewrite <- col_sum_map_Zsum. lia.
Qed.

Lemma col_sum_filter_le (col : TestRecord -> Z) (p : TestRecord -> bool)
    (l : list TestRecord) :
  (forall r, In r l -> 0 <= col r) ->
  0 <= col_sum col (filter p l) <= col_sum col l.
Proof.
  induction l as [|r l IH]; simpl; intros H; [lia|].
  pose proof (H r (or_introl eq_refl)).
  assert (0 <= col_sum col (filter p l) <= col_sum col l)
    by (apply IH; intros; apply H; now right).
  destruct (p r); simpl; lia.
Qed.

(** Every row of [consolidated_list] sums the records that pass two
    filters of the input. *)
Lemma consolidated_list_groups (df : list TestRecord) (g : Sums) :
  In g (consolidated_list df) ->
  exists p q, g = sum_rows (sEpic g) (filter q (filter p df)).
Proof.
  unfold consolidated_list. rewrite !in_app_iff. intros [H|[H|H]].
  - unfold consolidated_epics, groupby_sum in H. apply in_map_iff in H.
    destruct H as [k [<- _]]. now exists is_epic_row, (has_key Epic k).
  - destruct (empty (story_only_rows df)); [contradiction|].
    unfold consolidated_stories, groupby_sum in H.
    rewrite map_map in H. apply in_map_iff in H. destruct H as [k [<- _]].
    now exists is_story_only_row, (has_key Story k).
  - destruct (empty (untagged_rows df)); [contradiction|].
    destruct H as [<-|[]]. exists is_untagged_row, (fun _ => true).
    unfold untagged_summary, untagged_rows. simpl.
    now rewrite (filter_true (filter is_untagged_row df)).
Qed.

Lemma col_sum_plus (A : Type) (f g : A -> Z) (l : list A) :
  col_sum (fun r => f r + g r) l = col_sum f l + col_sum g l.
Proof. induction l as [|x l IH]; simpl; lia. Qed.

(** With non-negative counts that fit int64, the four sums of a row of
    [consolidated_list] are non-negative and add up to less than 2^63. *)
Lemma consolidated_list_fit (df : list TestRecord) (g : Sums) :
  Forall counts_nonneg df -> sums_fit_int64 df ->
  In g (consolidated_list df) ->
  0 <= sPASSED g /\ 0 <= sFAILED g /\ 0 <= sBROKEN g /\ 0 <= sSKIPPED g /\
  sPASSED g + sFAILED g + sBROKEN g + sSKIPPED g < 2 ^ 63.
Proof.
  intros Hdf Hfit Hg.
  destruct (consolidated_list_nonneg df g Hdf Hg) as (Hp & Hf & Hb & Hs).
  repeat split; trivial.
  destruct (consolidated_list_groups df g Hg) as (p & q & E).
  rewrite Forall_forall in Hdf.
  set (w := fun r => PASSED r + FAILED r + BROKEN r + SKIPPED r + UNKNOWN r).
  assert (Hw : forall r, In r df -> 0 <= w r).
  { intros r Hr. destruct (Hdf r Hr) as (? & ? & ? & ? & ?). unfold w. lia. }
  assert (H1 : col_sum w (filter p df) <= col_sum w df)
    by (apply col_sum_filter_le; exact Hw).
  assert (H2 : col_sum w (filter q (filter p df)) <= col_sum w (filter p df)).
  { apply col_sum_filter_le. intros r Hr. apply filter_In in Hr.
    apply Hw. tauto. }
  assert (H3 : 0 <= col_sum UNKNOWN (filter q (filter p df))).
  { apply col_sum_nonneg. intros r Hr. apply filter_In in Hr.
    destruct Hr as [Hr _]. apply filter_In in Hr. destruct Hr as [Hr _].
    destruct (Hdf r Hr) as (? & ? & ? & ? & ?). assumption. }
  unfold w in H2 at 1. rewrite !col_sum_plus in H2.
  unfold sums_fit_int64 in Hfit. fold w in Hfit.
  rewrite E. simpl. lia.
Qed.

(** Under the same conditions the sums of a row are also the wrapping
    int64 sums of its group: the aggregation of the machine integers and
    the one of the integers agree. *)
Lemma consolidated_list_machine (df : list TestRecord) (g : Sums) :
  Forall counts_nonneg df -> sums_fit_int64 df ->
  In g (consolidated_list df) ->
  exists grp : list TestRecord,
    incl grp df /\
    sPASSED g = Machine.col_sum PASSED grp /\
    sFAILED g = Machine.col_sum FAILED grp /\
    sBROKEN g = Machine.col_sum BROKEN grp /\
    sSKIPPED g = Machine.col_sum SKIPPED grp.
Proof.
  intros Hdf Hfit Hg.
  destruct (consolidated_list_fit df g Hdf Hfit Hg)
    as (Hp & Hf & Hb & Hs & Hlt).
  destruct (consolidated_list_groups df g Hg) as (p & q & E).
  rewrite Forall_forall in Hdf.
  assert (Hincl : incl (filter q (filter p df)) df).
  { intros r Hr. apply filter_In in Hr. destruct Hr as [Hr _].
    apply filter_In in Hr. tauto. }
  exists (filter q (filter p df)). split; [exact Hincl|].
  rewrite E in Hp, Hf, Hb, Hs, Hlt. simpl in Hp, Hf, Hb, Hs, Hlt.
  rewrite E. simpl.
  repeat split; symmetry; apply machine_col_sum_exact; try lia;
    intros r Hr; destruct (Hdf r (Hincl r Hr)) as (? & ? & ? & ? & ?);
    assumption.
Qed.

(** C3: with non-negative counts whose sums fit int64, a row of the
    consolidated table whose int64 total is 0 has totalTests 0, passRate
    NaN and status Review Required, on machine numbers as in exact
    arithmetic; the table itself is always produced. *)
Theorem zero_total_is_review_required (df : list TestRecord) (row : Row) :
  Forall counts_nonneg df ->
  sums_fit_int64 df ->
  In row (_consolidate_epics df) ->
  Machine.sum_axis1 [rPASSED row; rFAILED row; rBROKEN row; rSKIPPED row] = 0 ->
  totalTests row = 0 /\
  passRate row = NaN /\ status row = Review_Required /\
  Machine.metrics (rPASSED row) (rFAILED row) (rBROKEN row) (rSKIPPED row)
  = (0, PrimFloat.nan, Review_Required).
Proof.
  intros Hdf Hfit Hin Htot. apply consolidate_In in Hin.
  destruct Hin as [g [Hg ->]].
  destruct (consolidated_list_fit df g Hdf Hfit Hg)
    as (Hp & Hf & Hb & Hs & Hlt).
  unfold add_metrics in *. cbn [rPASSED rFAILED rBROKEN rSKIPPED totalTests
                                 passRate status] in *.
  rewrite sum_axis1_exact in Htot;
    [|repeat constructor; assumption | simpl; lia].
  simpl in Htot.
  assert (Ep : sPASSED g = 0) by lia. assert (Ef : sFAILED g = 0) by lia.
  assert (Eb : sBROKEN g = 0) by lia. assert (Es : sSKIPPED g = 0) by lia.
  rewrite Ep, Ef, Eb, Es. repeat split.
Qed.

(** Without non-negative counts a zero total need not come with zero
    passed tests: 1/0 is an infinity, which is at least 95. *)
Lemma negative_count_gives_infinity :
  _consolidate_epics negative_df = [mkRow "Odd" 1 (-1) 0 0 0 PInf Acceptable].
Proof. vm_compute. reflexivity. Qed.

Lemma zero_total_is_review_required_witness :
  totalTests (mkRow "Idle" 0 0 0 0 0 NaN Review_Required) = 0 /\
  passRate (mkRow "Idle" 0 0 0 0 0 NaN Review_Required) = NaN /\
  status (mkRow "Idle" 0 0 0 0 0 NaN Review_Required) = Review_Required /\
  Machine.metrics 0 0 0 0 = (0, PrimFloat.nan, Review_Required).
Proof.
  apply (zero_total_is_review_required idle_df
           (mkRow "Idle" 0 0 0 0 0 NaN Review_Required)).
  - repeat constructor; simpl; lia.
  - vm_compute. reflexivity.
  - vm_compute. now left.
  - vm_compute. reflexivity.
Defined.

(** ** Totals and rate bounds *)

Lemma group_of_incl (key : TestRecord -> option string) (k : string)
    (rows : list TestRecord) : incl (group_of key k rows) rows.
Proof. intros r Hr. apply filter_In in Hr. tauto. Qed.



(** Without the bound the int64 total can differ from the sum of the
    counts: four counts near 2^62 wrap to a total of 1. *)
Lemma int64_total_can_wrap :
  Machine.metrics (2 ^ 62) (2 ^ 62) (2 ^ 62) (2 ^ 62 + 1)
  = (1, 0x1.9p+68%float, Acceptable).
Proof. vm_compute. reflexivity. Qed.

(** ** Sorted output *)

Lemma rate_before_descending (a b : float) :
  rate_before a b = true <-> descending a b.
Proof.
  destruct a, b; simpl; try tauto; try (split; [discriminate|tauto]);
    try (split; [intros _; exact I | reflexivity]).
  apply Qle_bool_iff.
Qed.

Lemma rate_before_total (a b : float) :
  rate_before a b = true \/ rate_before b a = true.
Proof.
  destruct a, b; simpl; auto.
  destruct (Qlt_le_dec q q0) as [H|H].
  - right. apply Qle_bool_iff. now apply Qlt_le_weak.
  - left. now apply Qle_bool_iff.
Qed.

Lemma descending_trans (a b c : float) :
  descending a b -> descending b c -> descending a c.
Proof.
  destruct a, b, c; simpl; try tauto.
  intros H1 H2. now apply Qle_trans with q0.
Qed.

Lemma compare_Lt_string_lt (s1 s2 : string) :
  String.compare s1 s2 = Lt <-> string_lt s1 s2.
Proof. apply String_as_OT.cmp_lt. Qed.

Lemma row_le_in_report_order (r1 r2 : Row) :
  row_le r1 r2 = true <-> in_report_order r1 r2.
Proof.
  unfold row_le, in_report_order.
  destruct (String.compare (status r1) (status r2)) eqn:E.
  - apply String.compare_eq_iff in E. rewrite rate_before_descending.
    split; [tauto|]. intros [H|[_ H]]; trivial.
    rewrite E in H. exfalso. exact (String_as_OT.lt_not_eq _ _ H eq_refl).
  - apply compare_Lt_string_lt in E. tauto.
  - split; [discriminate|]. intros [H|[H _]].
    + apply compare_Lt_string_lt in H. congruence.
    + apply String_as_OT.cmp_eq in H. unfold String_as_OT.cmp in H.
      congruence.
Qed.

Lemma row_le_total (r1 r2 : Row) :
  row_le r1 r2 = true \/ row_le r2 r1 = true.
Proof.
  unfold row_le. rewrite (String.compare_antisym (status r2) (status r1)).
  destruct (String.compare (status r1) (status r2)); simpl; auto.
  apply rate_before_total.
Qed.

Lemma in_report_order_trans : Transitive in_report_order.
Proof.
  intros x y z [H1|[E1 D1]] [H2|[E2 D2]]; unfold in_report_order.
  - left. exact (String_as_OT.lt_trans _ _ _ H1 H2).
  - left. now rewrite <- E2.
  - left. now rewrite E1.
  - right. split; [congruence|]. exact (descending_trans _ _ _ D1 D2).
Qed.

Lemma Sorted_impl (A : Type) (R S : A -> A -> Prop) (l : list A) :
  (forall x y, R x y -> S x y) -> Sorted R l -> Sorted S l.
Proof.
  intros HRS. induction 1 as [|x l Hl IH Hx]; constructor; trivial.
  destruct Hx; constructor; auto.
Qed.

(** C5: the consolidated table (which has no TOTAL row) is the aggregated
    rows, each exactly once, put in order: of any two rows the earlier one
    has the smaller status label, or the same label and a pass rate at
    least as high, rows with an undefined pass rate coming last within
    their status. *)
Theorem consolidated_sorted (df : list TestRecord) :
  Permutation (_consolidate_epics df) (map add_metrics (consolidated_list df))
  /\ StronglySorted in_report_order (_consolidate_epics df).
Proof.
  split.
  - unfold _consolidate_epics, sort_values. apply stable_sort_perm.
  - apply Sorted_StronglySorted; [exact in_report_order_trans|].
    apply Sorted_impl with (R := fun x y => row_le x y = true).
    + intros x y. apply row_le_in_report_order.
    + apply stable_sort_Sorted. exact row_le_total.
Qed.

(** ** The TOTAL row *)

Lemma col_sum_Zsum (A : Type) (col : A -> Z) (rows : list A) :
  col_sum col rows = Zsum (map col rows).
Proof. induction rows as [|r t IH]; simpl; [reflexivity | now rewrite IH]. Qed.

Lemma final_df_values (self : TestAutomationAnalyzer) :
  values (final_df self) =
  (map row_cells (consolidated_df self) ++ [TOTAL (consolidated_df self)])%list.
Proof.
  unfold final_df, pd_concat, to_frame, totals_row, TOTAL. simpl.
  now rewrite !col_sum_Zsum.
Qed.

Lemma final_df_columns (self : TestAutomationAnalyzer) :
  columns (final_df self) = consolidated_columns.
Proof. reflexivity. Qed.

(** C4: the table rendered from a consolidated table is that table, every
    row unchanged and in the same order, followed by one last row TOTAL,
    whose PASSED, FAILED, BROKEN, SKIPPED and totalTests cells are the sums
    of these columns over the consolidated rows and whose passRate and
    status cells are empty strings; the image and the sheet both get it. *)
Theorem total_row_appended (csv : list TestRecord) :
  let self := __init__ csv in
  let rows := _consolidate_epics csv in
  values (final_df self) = (map row_cells rows ++ [TOTAL rows])%list /\
  firstn (List.length rows) (values (final_df self)) = map row_cells rows /\
  last (values (final_df self)) [] =
    [CStr "TOTAL"; CInt (Zsum (map rPASSED rows));
     CInt (Zsum (map rFAILED rows)); CInt (Zsum (map rBROKEN rows));
     CInt (Zsum (map rSKIPPED rows)); CInt (Zsum (map totalTests rows));
     CStr ""; CStr ""] /\
  (exists t, generate_epic_summary_table_plot column_labels_v7 self = inr t /\
             cellText t = values (final_df self)) /\
  dataframe_to_rows (final_df self) =
    map CStr consolidated_columns :: values (final_df self).
Proof.
  intros self rows.
  assert (E : values (final_df self) = (map row_cells rows ++ [TOTAL rows])%list)
    by apply final_df_values.
  repeat split.
  - exact E.
  - rewrite E. rewrite <- (length_map row_cells rows) at 1.
    rewrite firstn_app, firstn_all, Nat.sub_diag. simpl. apply app_nil_r.
  - rewrite E. apply last_last.
  - eexists. split; reflexivity.
Qed.

(** ** The column check *)

Lemma generate_plot_mismatch (column_labels : list string)
    (self : TestAutomationAnalyzer) :
  List.length (columns (final_df self)) <> List.length column_labels ->
  generate_epic_summary_table_plot column_labels self =
  inl (ValueError "Mismatch between DataFrame columns and column labels").
Proof.
  intros H. unfold generate_epic_summary_table_plot.
  apply Nat.eqb_neq in H. now rewrite H.
Qed.

(** C7: when the final table and the list of column labels differ in
    their number of columns, the run ends with the ValueError and the
    files are as they were before: neither the image nor a sheet has been
    written. *)
Theorem mismatch_raises_before_writing (column_labels : list string)
    (date_suffix : string) (csv : list TestRecord) (fs : FileSystem) :
  List.length (columns (final_df (__init__ csv))) <> List.length column_labels ->
  main column_labels date_suffix csv fs =
  (Some (ValueError "Mismatch between DataFrame columns and column labels"),
   fs).
Proof.
  intros H. unfold main, save_epic_summary_table_plot.
  now rewrite (generate_plot_mismatch column_labels (__init__ csv) H).
Qed.

Lemma mismatch_raises_before_writing_witness :
  main column_labels_v5 "041126" fallback_df [] =
  (Some (ValueError "Mismatch between DataFrame columns and column labels"),
   []).
Proof.
  apply (mismatch_raises_before_writing column_labels_v5 "041126" fallback_df []).
  simpl. lia.
Defined.

(** ** The two outputs *)

(** C8: a run writes the image and then the sheet twice; the rows of the
    sheet below its header are exactly the cell rows of the image table:
    the same values, columns and rows in the same order, ending with the
    same TOTAL row. *)
Theorem outputs_agree (date_suffix : string) (csv : list TestRecord)
    (fs : FileSystem) :
  exists (t : Table) (sheet : list (list Cell)),
    main column_labels_v7 date_suffix csv fs =
      (None,
       (fs ++ [(("IH_Epic_Summary_Table_cf_v1-0_" ++ date_suffix ++ ".png")%string,
                Png t);
               (("IH_Epic_Summary_XL_cf_v1-0_" ++ date_suffix ++ ".xlsx")%string,
                Xlsx "EPIC Summary" sheet);
               ("IH_Epic_ALLURE_Summary_cf_2025.xlsx",
                Xlsx "EPIC Summary" sheet)])%list) /\
    sheet = map CStr consolidated_columns :: cellText t /\
    cellText t =
      (map row_cells (_consolidate_epics csv)
         ++ [TOTAL (_consolidate_epics csv)])%list.
Proof.
  eexists. eexists. split; [|split].
  - unfold main, save_epic_summary_table_plot, save_epic_summary_to_excel,
      generate_epic_summary_table_plot, write.
    rewrite final_df_columns. simpl negb. cbv iota.
    rewrite <- !app_assoc. simpl app. reflexivity.
  - reflexivity.
  - simpl. apply (final_df_values (__init__ csv)).
Qed.

(** ** Classification by the rounded rate *)

(** The order of binary64, from the specification of the primitive
    floats. *)
Lemma SFcompare_antisym (a b : SpecFloat.spec_float) :
  SpecFloat.SFcompare b a = option_map CompOpp (SpecFloat.SFcompare a b).
Proof.
  destruct a as [sa|sa| |sa ma ea], b as [sb|sb| |sb mb eb]; simpl; trivial;
    try (destruct sa; reflexivity); try (destruct sb; reflexivity);
    try (destruct sa, sb; reflexivity).
  change (Pos.compare_cont Eq mb ma) with (Pos.compare mb ma).
  change (Pos.compare_cont Eq ma mb) with (Pos.compare ma mb).
  rewrite (Z.compare_antisym ea eb), (Pos.compare_antisym ma mb).
  destruct sa, sb; simpl; trivial;
    destruct (Z.compare ea eb); simpl; trivial;
    destruct (Pos.compare ma mb); reflexivity.
Qed.


Lemma ltb_not_leb (x y : PrimFloat.float) :
  PrimFloat.ltb x y = true -> PrimFloat.leb y x = false.
Proof.
  rewrite ltb_spec, leb_spec. unfold SpecFloat.SFltb, SpecFloat.SFleb.
  rewrite (SFcompare_antisym (Prim2SF x) (Prim2SF y)).
  destruct (SpecFloat.SFcompare (Prim2SF x) (Prim2SF y)) as [[]|]; simpl;
    auto; discriminate.
Qed.

Lemma SFcompare_lt_const (a : SpecFloat.spec_float) (m1 m2 : positive)
    (e : Z) :
  (m1 < m2)%positive ->
  SpecFloat.SFcompare a (SpecFloat.S754_finite false m1 e) = Some Lt ->
  SpecFloat.SFcompare a (SpecFloat.S754_finite false m2 e) = Some Lt.
Proof.
  intros Hm. destruct a as [s|s| |s m e']; cbn [SpecFloat.SFcompare]; trivial.
  destruct s; trivial.
  destruct (Z.compare e' e); trivial.
  change (Pos.compare_cont Eq m ?k) with (Pos.compare m k).
  intros H. injection H as H. f_equal.
  apply Pos.compare_lt_iff in H. apply Pos.compare_lt_iff.
  exact (Pos.lt_trans _ _ _ H Hm).
Qed.

Lemma Prim2SF_80 :
  Prim2SF 80%float = SpecFloat.S754_finite false 5629499534213120 (-46).
Proof. vm_compute. reflexivity. Qed.

Lemma Prim2SF_95 :
  Prim2SF 95%float = SpecFloat.S754_finite false 6685030696878080 (-46).
Proof. vm_compute. reflexivity. Qed.

Lemma ltb_80_95 (x : PrimFloat.float) :
  PrimFloat.ltb x 80%float = true -> PrimFloat.ltb x 95%float = true.
Proof.
  rewrite !ltb_spec, Prim2SF_80, Prim2SF_95. unfold SpecFloat.SFltb.
  destruct (SpecFloat.SFcompare (Prim2SF x)
              (SpecFloat.S754_finite false 5629499534213120 (-46)))
    as [[]|] eqn:E; try discriminate.
  intros _.
  rewrite (SFcompare_lt_const (Prim2SF x) 5629499534213120 6685030696878080
             (-46) eq_refl E).
  reflexivity.
Qed.

(** The thresholds on a binary64 pass rate. *)
Lemma binary64_status_thresholds (x : PrimFloat.float) :
  (PrimFloat.leb 95%float x = true ->
   Binary64._determine_status x = Acceptable) /\
  (PrimFloat.leb 80%float x = true /\ PrimFloat.ltb x 95%float = true ->
   Binary64._determine_status x = Maintenance_Advised) /\
  (PrimFloat.ltb x 80%float = true ->
   Binary64._determine_status x = Review_Required).
Proof.
  unfold Binary64._determine_status. repeat split.
  - intros H. now rewrite H.
  - intros [H1 H2]. now rewrite (ltb_not_leb _ _ H2), H1.
  - intros H.
    now rewrite (ltb_not_leb _ _ (ltb_80_95 x H)), (ltb_not_leb _ _ H).
Qed.

(** C10, as the code has it: the status of a row is decided by the stored
    passRate, the binary64 value of PASSED / totalTests * 100 rounded to
    two decimals, and not by the exact ratio: stored 95 or more is
    Acceptable, stored 80 or more and below 95 is Maintenance Advised,
    stored below 80 is Review Required. So 94996 passed of 100000
    (94.996 %) is stored as 95.0 and Acceptable, and 79996 of 100000
    (79.996 %) is stored as 80.0 and Maintenance Advised. *)
Theorem status_from_stored_rate :
  (forall (passed failed broken skipped total : Z) (rate : PrimFloat.float)
          (st : string),
     Machine.metrics passed failed broken skipped = (total, rate, st) ->
     rate = Binary64.round2
              (PrimFloat.mul
                 (PrimFloat.div (Binary64.of_int passed)
                    (Binary64.of_int total))
                 100%float) /\
     (PrimFloat.leb 95%float rate = true -> st = Acceptable) /\
     (PrimFloat.leb 80%float rate = true /\ PrimFloat.ltb rate 95%float = true ->
      st = Maintenance_Advised) /\
     (PrimFloat.ltb rate 80%float = true -> st = Review_Required)) /\
  (Machine.metrics 94996 5004 0 0 = (100000, 95%float, Acceptable) /\
   100 * 94996 < 95 * 100000) /\
  (Machine.metrics 79996 20004 0 0 = (100000, 80%float, Maintenance_Advised) /\
   100 * 79996 < 80 * 100000).
Proof.
  split; [|split].
  - intros passed failed broken skipped total rate st H.
    unfold Machine.metrics in H. injection H as <- <- <-.
    split; [reflexivity|]. apply binary64_status_thresholds.
  - split; [vm_compute; reflexivity | lia].
  - split; [vm_compute; reflexivity | lia].
Qed.

Lemma status_from_stored_rate_witness :
  PrimFloat.leb 95%float 95%float = true /\ Acceptable = Acceptable.
Proof.
  split; [reflexivity|].
  refine (proj1 (proj2 (proj1 status_from_stored_rate
                          94996 5004 0 0 100000 95%float Acceptable _)) _).
  - vm_compute. reflexivity.
  - reflexivity.
Defined.

(** C10, as stated, fails at its own example: 18999 passed of 20000 is
    exactly 94.995 %, yet binary64 stores 94.99 (the float
    0x1.7bf5c28f5c28fp+6) and the row is Maintenance Advised; an exact
    percentage of 94.995 or more does not always round to 95.0. *)
Lemma tie_is_stored_below_threshold :
  (100000 * 18999 = 94995 * 20000 /\
   Machine.metrics 18999 1001 0 0
   = (20000, 0x1.7bf5c28f5c28fp+6%float, Maintenance_Advised)) /\
  ~ (forall passed total : Z,
       0 < total -> 94995 * total <= 100000 * passed ->
       Binary64._determine_status (Binary64.passRate passed total)
       = Acceptable).
Proof.
  split.
  - split; [reflexivity | vm_compute; reflexivity].
  - intros H. specialize (H 18999 20000 ltac:(lia) ltac:(lia)).
    vm_compute in H. discriminate.
Qed.

(** Above the tie the stored rate can still be 94.99: here the exact
    percentage is greater than 94.995. *)
Lemma above_tie_stored_below_threshold :
  94995 * 3020008479001 < 100000 * 2868857054627 /\
  Binary64.passRate 2868857054627 3020008479001
  = 0x1.7bf5c28f5c28fp+6%float.
Proof. split; [reflexivity | vm_compute; reflexivity]. Qed.

(** ** Every selected record in one row *)

Lemma Zsum_perm (A : Type) (f : A -> Z) (l l' : list A) :
  Permutation l l' -> Zsum (map f l) = Zsum (map f l').
Proof. induction 1; simpl; lia. Qed.

Lemma filter_none (A : Type) (l : list A) : filter (fun _ => false) l = [].
Proof. induction l; simpl; trivial. Qed.

Lemma filter_all (A : Type) (p : A -> bool) (l : list A) :
  (forall x, In x l -> p x = true) -> filter p l = l.
Proof.
  induction l as [|x t IH]; simpl; intros H; trivial.
  rewrite (H x (or_introl eq_refl)). f_equal. apply IH. intros; apply H; now right.
Qed.

(** Two filters that never select the same element split what either
    selects. *)
Lemma filter_disjoint_app (A : Type) (p q : A -> bool) (l : list A) :
  (forall x, In x l -> p x = true -> q x = true -> False) ->
  Permutation (filter p l ++ filter q l) (filter (fun x => p x || q x) l).
Proof.
  induction l as [|x t IH]; simpl; intros H; [constructor|].
  assert (IH' : Permutation (filter p t ++ filter q t)
                  (filter (fun x => p x || q x) t))
    by (apply IH; intros y Hy; apply H; now right).
  destruct (p x) eqn:Ep, (q x) eqn:Eq; simpl.
  - exfalso. apply (H x); auto.
  - now constructor.
  - apply Permutation_sym, Permutation_cons_app, Permutation_sym, IH'.
  - exact IH'.
Qed.

Lemma has_key_true (key : TestRecord -> option string) (k : string)
    (r : TestRecord) : has_key key k r = true <-> key r = Some k.
Proof.
  unfold has_key. destruct (key r) as [k'|].
  - rewrite String.eqb_eq. split; congruence.
  - split; discriminate.
Qed.

Lemma group_keys_In (key : TestRecord -> option string)
    (rows : list TestRecord) (k : string) :
  In k (group_keys key rows) <-> exists r, In r rows /\ key r = Some k.
Proof.
  unfold group_keys, present_keys.
  rewrite stable_sort_In, nodup_In, in_flat_map.
  split; intros [r [Hr Hk]]; exists r; split; trivial.
  - destruct (key r); [destruct Hk as [->|[]]; reflexivity | contradiction].
  - rewrite Hk. now left.
Qed.

Lemma group_keys_NoDup (key : TestRecord -> option string)
    (rows : list TestRecord) : NoDup (group_keys key rows).
Proof.
  unfold group_keys.
  apply Permutation_NoDup with (nodup string_dec (present_keys key rows)).
  - apply Permutation_sym, stable_sort_perm.
  - apply NoDup_nodup.
Qed.

(** The groups of distinct keys split the rows that have one of them. *)
Lemma groups_split (key : TestRecord -> option string)
    (rows : list TestRecord) (ks : list string) :
  NoDup ks ->
  Permutation (List.concat (map (fun k => group_of key k rows) ks))
    (filter (fun r => existsb (fun k => has_key key k r) ks) rows).
Proof.
  induction 1 as [|k ks Hk Hks IH]; simpl.
  - rewrite filter_none. constructor.
  - apply Permutation_trans with
      (group_of key k rows
       ++ filter (fun r => existsb (fun k => has_key key k r) ks) rows)%list.
    + now apply Permutation_app_head.
    + apply filter_disjoint_app. intros r _ H1 H2.
      apply has_key_true in H1. apply existsb_exists in H2.
      destruct H2 as [k' [Hk' H2]]. apply has_key_true in H2.
      apply Hk. congruence.
Qed.

Lemma groupby_split (key : TestRecord -> option string)
    (rows : list TestRecord) :
  (forall r, In r rows -> key r <> None) ->
  Permutation
    (List.concat (map (fun k => group_of key k rows) (group_keys key rows)))
    rows.
Proof.
  intros Hkey.
  apply Permutation_trans with
    (filter (fun r => existsb (fun k => has_key key k r) (group_keys key rows))
       rows).
  - apply groups_split, group_keys_NoDup.
  - rewrite filter_all; [apply Permutation_refl|].
    intros r Hr. apply existsb_exists.
    destruct (key r) as [k|] eqn:E; [|now destruct (Hkey r Hr)].
    exists k. split; [|now apply has_key_true].
    apply group_keys_In. now exists r.
Qed.

Lemma three_filters_split (df : list TestRecord) :
  Permutation (epic_rows df ++ story_only_rows df ++ untagged_rows df)
    (filter selected df).
Proof.
  unfold epic_rows, story_only_rows, untagged_rows, selected.
  apply Permutation_trans with
    (filter is_epic_row df
     ++ filter (fun r => is_story_only_row r || is_untagged_row r) df)%list.
  - apply Permutation_app_head, filter_disjoint_app.
    intros r _. unfold is_story_only_row, is_untagged_row, notna.
    destruct (Epic r), (Feature r), (Story r); simpl; discriminate.
  - rewrite (filter_ext selected
               (fun r => is_epic_row r
                         || (is_story_only_row r || is_untagged_row r)));
      [|intros r; unfold selected; now rewrite orb_assoc].
    apply filter_disjoint_app.
    intros r _. unfold is_epic_row, is_story_only_row, is_untagged_row, notna.
    destruct (Epic r), (Feature r), (Story r); simpl; discriminate.
Qed.

Lemma Forall2_map_same (A B C : Type) (R : B -> C -> Prop) (f : A -> B)
    (g : A -> C) (l : list A) :
  (forall x, In x l -> R (f x) (g x)) -> Forall2 R (map f l) (map g l).
Proof.
  induction l as [|x t IH]; simpl; intros H; constructor.
  - apply H. now left.
  - apply IH. intros; apply H; now right.
Qed.

Lemma Forall2_map_l (A B C : Type) (R : B -> C -> Prop) (f : A -> B)
    (l : list A) (l' : list C) :
  Forall2 (fun x y => R (f x) y) l l' -> Forall2 R (map f l) l'.
Proof. induction 1; simpl; constructor; trivial. Qed.

Lemma group_nonempty (key : TestRecord -> option string)
    (rows : list TestRecord) (k : string) :
  In k (group_keys key rows) -> group_of key k rows <> [].
Proof.
  intros Hk E. apply group_keys_In in Hk. destruct Hk as [r [Hr Hkr]].
  assert (Hin : In r (group_of key k rows)).
  { apply filter_In. split; trivial. now apply has_key_true. }
  rewrite E in Hin. exact Hin.
Qed.

Lemma group_of_key (key : TestRecord -> option string)
    (rows : list TestRecord) (k : string) (r : TestRecord) :
  In r (group_of key k rows) -> In r rows /\ key r = Some k.
Proof.
  intros H. apply filter_In in H. destruct H as [H1 H2].
  split; trivial. now apply has_key_true.
Qed.

Lemma consolidated_stories_if (df : list TestRecord) :
  (if empty (story_only_rows df) then [] else consolidated_stories df) =
  consolidated_stories df.
Proof.
  unfold consolidated_stories, groupby_sum.
  destruct (story_only_rows df); reflexivity.
Qed.

Lemma consolidated_list_parts (df : list TestRecord) :
  Forall2 sums_of_part (consolidated_list df) (parts_of df).
Proof.
  unfold consolidated_list, parts_of. rewrite consolidated_stories_if.
  apply Forall2_app; [|apply Forall2_app].
  - unfold consolidated_epics, groupby_sum. apply Forall2_map_same.
    intros k Hk. split; [|split; [|split]]; simpl; trivial.
    + now apply group_nonempty.
    + intros r Hr. apply group_of_key in Hr. tauto.
  - unfold consolidated_stories, groupby_sum. rewrite map_map.
    apply Forall2_map_same.
    intros k Hk. split; [|split; [|split]]; simpl; trivial.
    + now apply group_nonempty.
    + intros r Hr. apply group_of_key in Hr. destruct Hr as [Hr Hs].
      apply filter_In in Hr. destruct Hr as [_ Hr].
      unfold is_story_only_row in Hr.
      destruct (Epic r), (Feature r); try discriminate. auto.
  - destruct (empty (untagged_rows df)) eqn:E; constructor; [|constructor].
    split; [|split; [|split]]; simpl.
    + reflexivity.
    + intros H. rewrite H in E. discriminate.
    + intros r Hr. apply filter_In in Hr.
      destruct Hr as [_ Hr]. unfold is_untagged_row in Hr.
      destruct (Epic r), (Feature r), (Story r); try discriminate. auto.
    + reflexivity.
Qed.

Lemma parts_of_concat (df : list TestRecord) :
  Permutation (List.concat (map snd (parts_of df))) (filter selected df).
Proof.
  apply Permutation_trans with
    (epic_rows df ++ story_only_rows df ++ untagged_rows df)%list;
    [|apply three_filters_split].
  unfold parts_of. rewrite !map_app, !concat_app, !map_map. simpl.
  apply Permutation_app; [|apply Permutation_app].
  - apply groupby_split. intros r Hr. apply filter_In in Hr.
    destruct Hr as [_ Hr]. unfold is_epic_row in Hr.
    destruct (Epic r); [discriminate | discriminate].
  - apply groupby_split. intros r Hr. apply filter_In in Hr.
    destruct Hr as [_ Hr]. unfold is_story_only_row in Hr.
    destruct (Epic r), (Feature r), (Story r); discriminate.
  - destruct (untagged_rows df); simpl; [constructor|].
    rewrite app_nil_r. apply Permutation_refl.
Qed.

Lemma NoDup_map_injective (A B : Type) (f : A -> B) (l : list A) :
  (forall a b, f a = f b -> a = b) -> NoDup l -> NoDup (map f l).
Proof.
  intros Hf. induction 1 as [|x t Hx Ht IH]; simpl; constructor; trivial.
  intros H. apply in_map_iff in H. destruct H as [y [E Hy]].
  apply Hf in E. now subst.
Qed.

Lemma parts_of_NoDup (df : list TestRecord) : NoDup (map fst (parts_of df)).
Proof.
  unfold parts_of. rewrite !map_app, !map_map. simpl.
  apply NoDup_app; [|apply NoDup_app|].
  - apply NoDup_map_injective; [|apply group_keys_NoDup].
    intros a b E. now injection E.
  - apply NoDup_map_injective; [|apply group_keys_NoDup].
    intros a b E. now injection E.
  - destruct (empty (untagged_rows df)); simpl; repeat constructor. intros [].
  - intros G H1 H2. apply in_map_iff in H1. destruct H1 as [k [<- _]].
    destruct (empty (untagged_rows df)); simpl in H2;
      [contradiction | destruct H2 as [H2|[]]; discriminate].
  - intros G H1 H2. apply in_map_iff in H1. destruct H1 as [k [<- _]].
    apply in_app_iff in H2. destruct H2 as [H2|H2].
    + apply in_map_iff in H2. destruct H2 as [k' [H2 _]]. discriminate.
    + destruct (empty (untagged_rows df)); simpl in H2;
        [contradiction | destruct H2 as [H2|[]]; discriminate].
Qed.

Lemma add_metrics_part (g : Sums) (part : Group * list TestRecord) :
  sums_of_part g part -> row_of_part (add_metrics g) part.
Proof.
  intros (Hk & Hne & Hin & Hs). unfold row_of_part, row_sums. simpl.
  repeat split; trivial; try (intros r Hr _; now apply Hin);
    rewrite Hs; simpl; apply col_sum_Zsum.
Qed.

Lemma Permutation_concat (A : Type) (l l' : list (list A)) :
  Permutation l l' -> Permutation (List.concat l) (List.concat l').
Proof.
  induction 1; simpl.
  - constructor.
  - now apply Permutation_app_head.
  - rewrite !app_assoc. apply Permutation_app_tail, Permutation_app_comm.
  - now apply Permutation_trans with (List.concat l').
Qed.

Lemma selected_iff (r : TestRecord) :
  selected r = true <-> exists G, in_group r G.
Proof.
  unfold selected, is_epic_row, is_story_only_row, is_untagged_row, notna.
  split.
  - destruct (Epic r) as [e|] eqn:Ee; [intros _; now exists (ByEpic e)|].
    destruct (Feature r) eqn:Ef; [discriminate|].
    destruct (Story r) as [s|] eqn:Es; intros _.
    + exists (ByStory s). simpl. auto.
    + exists Untagged. simpl. auto.
  - intros [[e|s|] H]; simpl in H.
    + now rewrite H.
    + destruct H as (-> & -> & ->). reflexivity.
    + destruct H as (-> & -> & ->). reflexivity.
Qed.

(** C2, as the code has it: the records selected by one of the three
    filters (those with an Epic, and those with neither Epic nor Feature)
    are each counted in exactly one row of the consolidated table: the row
    of their Epic, of their Story with the suffix " - No EPIC Tagged", or
    the row "Test Cases Not Tagged"; a record is selected exactly when it
    has an Epic or has no Feature. *)
Theorem selected_records_in_one_row (df : list TestRecord) :
  each_record_in_one_row (filter selected df) (_consolidate_epics df) /\
  (forall r, selected r = true <-> Epic r <> None \/ Feature r = None).
Proof.
  split.
  - assert (H0 : Forall2 row_of_part (map add_metrics (consolidated_list df))
                   (parts_of df)).
    { apply Forall2_map_l.
      apply Forall2_impl with (2 := consolidated_list_parts df).
      exact add_metrics_part. }
    destruct (Permutation_Forall2
                (Permutation_sym
                   (stable_sort_perm Row row_le
                      (map add_metrics (consolidated_list df)))) H0)
      as [parts [Hperm HF]].
    exists parts. split; [|split].
    + apply Permutation_trans with (List.concat (map snd (parts_of df))).
      * apply Permutation_concat, Permutation_map, Permutation_sym, Hperm.
      * apply parts_of_concat.
    + apply Permutation_NoDup with (map fst (parts_of df)).
      * now apply Permutation_map.
      * apply parts_of_NoDup.
    + exact HF.
  - intros r. unfold selected, is_epic_row, is_story_only_row,
      is_untagged_row, notna.
    destruct (Epic r), (Feature r), (Story r); simpl; split; intros H;
      trivial; try discriminate; try (left; discriminate); try now right.
    + destruct H as [H|H]; [now destruct H | discriminate].
    + destruct H as [H|H]; [now destruct H | discriminate].
Qed.

(** C2, as stated, fails: a test with a Feature but no Epic is in no row.
    The consolidated table of [feature_only_df] has the single row
    "Payments" with one test, the second record is counted nowhere. *)
Lemma feature_only_record_dropped :
  _consolidate_epics feature_only_df
    = [mkRow "Payments" 1 0 0 0 1 (Fin 100) Acceptable] /\
  ~ each_record_in_one_row feature_only_df (_consolidate_epics feature_only_df).
Proof.
  assert (E : _consolidate_epics feature_only_df
              = [mkRow "Payments" 1 0 0 0 1 (Fin 100) Acceptable])
    by (vm_compute; reflexivity).
  split; [exact E|]. rewrite E. intros (parts & Hperm & _ & HF).
  inversion HF as [|row part t parts' Hrow Ht]; subst.
  inversion Ht; subst. simpl in Hperm. rewrite app_nil_r in Hperm.
  destruct Hrow as (_ & _ & _ & Hsum & _). simpl in Hsum.
  rewrite (Zsum_perm _ PASSED _ _ Hperm) in Hsum. vm_compute in Hsum.
  discriminate.
Qed.

(** ** The examples in binary64 *)

(** The rates of the inputs used above are the same on machine floats. *)
Lemma binary64_examples :
  (Binary64.passRate 1 1 = 100%float) /\
  (Binary64.passRate 0 1 = 0%float) /\
  (Binary64.passRate 1 2 = 50%float) /\
  (Binary64.passRate 94996 100000 = 95%float) /\
  (Binary64.passRate 79996 100000 = 80%float) /\
  (Binary64._determine_status (Binary64.passRate 94996 100000) = Acceptable) /\
  (Binary64._determine_status (Binary64.passRate 79996 100000)
     = Maintenance_Advised) /\
  (Binary64._determine_status (Binary64.passRate 0 0) = Review_Required).
Proof. vm_compute. repeat split. Qed.

(** At an exact tie the rounding error of binary64 decides: 18999 of 20000
    is 94.995 %, which the exact model rounds to 95 and binary64 to 94.99
    (the float 0x1.7bf5c28f5c28fp+6). *)
Lemma binary64_tie :
  round2 (exact_rate 18999 20000) = Fin 95 /\
  Binary64.passRate 18999 20000 = 0x1.7bf5c28f5c28fp+6%float.
Proof. vm_compute. split; reflexivity. Qed.

(** * Further properties of the aggregation *)

(** ** The order of the input rows *)

Lemma leb_compare (s1 s2 : string) :
  String.leb s1 s2 = true <-> String.compare s1 s2 <> Gt.
Proof.
  unfold String.leb. destruct (String.compare s1 s2); split; intros H;
    trivial; try discriminate. now destruct H.
Qed.

Lemma leb_string_lt (s1 s2 : string) :
  String.leb s1 s2 = true <-> string_lt s1 s2 \/ s1 = s2.
Proof.
  rewrite leb_compare. destruct (String.compare s1 s2) eqn:E.
  - apply String_as_OT.cmp_eq in E. split; [now right | discriminate].
  - apply compare_Lt_string_lt in E. split; [now left | discriminate].
  - split; [intros H; now destruct H|]. intros [H|H].
    + apply compare_Lt_string_lt in H. congruence.
    + apply String_as_OT.cmp_eq in H. unfold String_as_OT.cmp in H.
      congruence.
Qed.

Lemma leb_trans (s1 s2 s3 : string) :
  String.leb s1 s2 = true -> String.leb s2 s3 = true ->
  String.leb s1 s3 = true.
Proof.
  rewrite !leb_string_lt. intros [H1 | ->] [H2 | <-]; auto.
  left. exact (String_as_OT.lt_trans _ _ _ H1 H2).
Qed.

Section SortedUnique.
Variable A : Type.
Variable le : A -> A -> bool.
Hypothesis le_total : forall x y, le x y = true \/ le y x = true.
Hypothesis le_trans :
  forall x y z, le x y = true -> le y z = true -> le x z = true.
Hypothesis le_antisym : forall x y, le x y = true -> le y x = true -> x = y.

(** Two sorted arrangements of the same elements are the same list. *)
Lemma sorted_perm_eq (l l' : list A) :
  StronglySorted (fun x y => le x y = true) l ->
  StronglySorted (fun x y => le x y = true) l' ->
  Permutation l l' -> l = l'.
Proof.
  intros Hl. revert l'. induction Hl as [|x t Ht IH Hx]; intros l' Hl' Hp.
  - symmetry. now apply Permutation_nil.
  - destruct Hl' as [|y t' Ht' Hy].
    + apply Permutation_sym, Permutation_nil in Hp. discriminate.
    + assert (E : x = y).
      { assert (Hxin : In x (y :: t'))
          by (apply (Permutation_in _ Hp); now left).
        assert (Hyin : In y (x :: t))
          by (apply (Permutation_in _ (Permutation_sym Hp)); now left).
        destruct Hxin as [->|Hxin]; trivial.
        destruct Hyin as [->|Hyin]; trivial.
        rewrite Forall_forall in Hx, Hy.
        apply le_antisym; [now apply Hx | now apply Hy]. }
      subst y. f_equal. apply IH; trivial.
      now apply Permutation_cons_inv with x.
Qed.

Lemma stable_sort_StronglySorted (l : list A) :
  StronglySorted (fun x y => le x y = true) (stable_sort le l).
Proof.
  apply Sorted_StronglySorted.
  - intros x y z. apply le_trans.
  - now apply stable_sort_Sorted.
Qed.

Lemma stable_sort_perm_eq (l l' : list A) :
  Permutation l l' -> stable_sort le l = stable_sort le l'.
Proof.
  intros Hp. apply sorted_perm_eq; try apply stable_sort_StronglySorted.
  apply Permutation_trans with l; [apply stable_sort_perm|].
  apply Permutation_trans with l'; [exact Hp|].
  apply Permutation_sym, stable_sort_perm.
Qed.
End SortedUnique.

Lemma Permutation_filter (A : Type) (p : A -> bool) (l l' : list A) :
  Permutation l l' -> Permutation (filter p l) (filter p l').
Proof.
  induction 1 as [|x l l' H IH|x y l|l l' l'' H1 IH1 H2 IH2]; simpl.
  - constructor.
  - destruct (p x); [now constructor | exact IH].
  - destruct (p x), (p y); try apply Permutation_refl. apply perm_swap.
  - now apply Permutation_trans with (filter p l').
Qed.

Lemma col_sum_perm (A : Type) (col : A -> Z) (l l' : list A) :
  Permutation l l' -> col_sum col l = col_sum col l'.
Proof. induction 1; simpl; lia. Qed.

Lemma present_keys_perm (key : TestRecord -> option string)
    (rows rows' : list TestRecord) :
  Permutation rows rows' ->
  Permutation (present_keys key rows) (present_keys key rows').
Proof.
  induction 1 as [|x l l' H IH|x y l|l l' l'' H1 IH1 H2 IH2]; simpl.
  - constructor.
  - now apply Permutation_app_head.
  - rewrite !app_assoc. apply Permutation_app_tail, Permutation_app_comm.
  - now apply Permutation_trans with (present_keys key l').
Qed.

Lemma group_keys_perm (key : TestRecord -> option string)
    (rows rows' : list TestRecord) :
  Permutation rows rows' -> group_keys key rows = group_keys key rows'.
Proof.
  intros Hp. unfold group_keys.
  apply stable_sort_perm_eq.
  - apply String.leb_total.
  - apply leb_trans.
  - apply String.leb_antisym.
  - apply NoDup_Permutation; try apply NoDup_nodup.
    intros k. rewrite !nodup_In.
    pose proof (present_keys_perm key rows rows' Hp) as Hk.
    split; apply Permutation_in; [exact Hk | now apply Permutation_sym].
Qed.

Lemma groupby_sum_perm (key : TestRecord -> option string)
    (rows rows' : list TestRecord) :
  Permutation rows rows' -> groupby_sum key rows = groupby_sum key rows'.
Proof.
  intros Hp. unfold groupby_sum. rewrite (group_keys_perm key rows rows' Hp).
  apply map_ext. intros k. unfold sum_rows, group_of.
  pose proof (Permutation_filter _ (has_key key k) _ _ Hp) as Hf.
  now rewrite !(col_sum_perm _ _ _ _ Hf).
Qed.

Lemma empty_perm (A : Type) (l l' : list A) :
  Permutation l l' -> empty l = empty l'.
Proof.
  intros Hp. destruct l, l'; trivial.
  - apply Permutation_nil in Hp. discriminate.
  - apply Permutation_sym, Permutation_nil in Hp. discriminate.
Qed.

Lemma consolidated_list_perm (df df' : list TestRecord) :
  Permutation df df' -> consolidated_list df = consolidated_list df'.
Proof.
  intros Hp. unfold consolidated_list, consolidated_epics,
    consolidated_stories, untagged_summary, sum_rows,
    epic_rows, story_only_rows, untagged_rows.
  pose proof (Permutation_filter _ is_epic_row _ _ Hp) as He.
  pose proof (Permutation_filter _ is_story_only_row _ _ Hp) as Hs.
  pose proof (Permutation_filter _ is_untagged_row _ _ Hp) as Hu.
  rewrite (groupby_sum_perm Epic _ _ He), (groupby_sum_perm Story _ _ Hs).
  rewrite (empty_perm _ _ _ Hs), (empty_perm _ _ _ Hu).
  now rewrite !(col_sum_perm _ _ _ _ Hu).
Qed.

(** X1: the consolidated table does not depend on the order of the rows of the
    CSV: rearranging the input gives the same rows in the same order. *)
Theorem consolidate_order_independent (df df' : list TestRecord) :
  Permutation df df' -> _consolidate_epics df = _consolidate_epics df'.
Proof.
  intros Hp. unfold _consolidate_epics.
  now rewrite (consolidated_list_perm df df' Hp).
Qed.

Lemma consolidate_order_independent_witness :
  _consolidate_epics mixed_df = _consolidate_epics (rev mixed_df).
Proof.
  apply (consolidate_order_independent mixed_df (rev mixed_df)).
  apply Permutation_rev.
Defined.

(** ** Size of the table and grand totals *)

Lemma parts_sum (col : TestRecord -> Z) (scol : Sums -> Z)
    (l : list Sums) (parts : list (Group * list TestRecord)) :
  (forall k g, scol (sum_rows k g) = col_sum col g) ->
  Forall2 sums_of_part l parts ->
  col_sum scol l = col_sum col (List.concat (map snd parts)).
Proof.
  intros Hcol. induction 1 as [|g part l parts Hg _ IH]; simpl; trivial.
  destruct Hg as (_ & _ & _ & Hs).
  assert (Happ : forall a b, col_sum col (a ++ b)
                             = col_sum col a + col_sum col b).
  { induction a as [|x a IHa]; intros b; simpl; [lia | rewrite IHa; lia]. }
  rewrite Happ, <- IH, Hs, Hcol. reflexivity.
Qed.

Lemma concat_nonempty_length (A : Type) (parts : list (list A)) :
  Forall (fun p => p <> []) parts ->
  (List.length parts <= List.length (List.concat parts))%nat.
Proof.
  induction 1 as [|p parts Hp _ IH]; simpl; [lia|].
  rewrite length_app. destruct p; [now destruct Hp | simpl; lia].
Qed.

Lemma consolidate_length (df : list TestRecord) :
  List.length (_consolidate_epics df) = List.length (parts_of df).
Proof.
  unfold _consolidate_epics, sort_values.
  rewrite (Permutation_length (stable_sort_perm Row row_le _)), length_map.
  exact (Forall2_length (consolidated_list_parts df)).
Qed.

Lemma parts_of_nonempty (df : list TestRecord) :
  Forall (fun p => p <> []) (map snd (parts_of df)).
Proof.
  pose proof (consolidated_list_parts df) as H.
  induction H as [|g part l parts Hg _ IH]; simpl; constructor; trivial.
  now destruct Hg as (_ & Hne & _).
Qed.

(** X2: the table has at most one row per selected record, and it has no row
    exactly when no record of the input is selected by one of the three
    filters, as for an empty CSV. *)
Theorem table_size (df : list TestRecord) :
  (List.length (_consolidate_epics df)
   <= List.length (filter selected df))%nat /\
  (_consolidate_epics df = [] <-> filter selected df = []) /\
  _consolidate_epics [] = [].
Proof.
  pose proof (Permutation_length (parts_of_concat df)) as Hlen.
  pose proof (concat_nonempty_length _ _ (parts_of_nonempty df)) as Hle.
  rewrite length_map in Hle.
  pose proof (consolidate_length df) as Hrows.
  split; [lia|]. split; [|reflexivity]. split; intros H.
  - apply length_zero_iff_nil. rewrite <- Hlen.
    rewrite H in Hrows. simpl in Hrows. symmetry in Hrows.
    apply length_zero_iff_nil in Hrows. now rewrite Hrows.
  - apply length_zero_iff_nil. rewrite H in Hlen. simpl in Hlen. lia.
Qed.

Lemma consolidate_col_sum (df : list TestRecord) (col : TestRecord -> Z)
    (scol : Sums -> Z) (rcol : Row -> Z) :
  (forall k g, scol (sum_rows k g) = col_sum col g) ->
  (forall g, rcol (add_metrics g) = scol g) ->
  col_sum rcol (_consolidate_epics df) = col_sum col (filter selected df).
Proof.
  intros Hs Hr. unfold _consolidate_epics, sort_values.
  rewrite (col_sum_perm _ rcol _ _ (stable_sort_perm Row row_le _)).
  rewrite <- (col_sum_perm _ col _ _ (parts_of_concat df)).
  rewrite <- (parts_sum col scol _ _ Hs (consolidated_list_parts df)).
  induction (consolidated_list df) as [|g l IH]; simpl; trivial.
  now rewrite Hr, IH.
Qed.

Lemma col_sum_add (A : Type) (f g : A -> Z) (l : list A) :
  col_sum (fun r => f r + g r) l = col_sum f l + col_sum g l.
Proof. induction l as [|x l IH]; simpl; lia. Qed.

(** X3: the TOTAL row holds the outcome counts of the selected records of the
    CSV, column by column, and its totalTests is their sum: nothing is
    counted that the CSV does not hold, and each selected record is counted
    once. *)
Theorem grand_total (csv : list TestRecord) :
  let sel := filter selected csv in
  TOTAL (_consolidate_epics csv) =
  [CStr "TOTAL"; CInt (Zsum (map PASSED sel)); CInt (Zsum (map FAILED sel));
   CInt (Zsum (map BROKEN sel)); CInt (Zsum (map SKIPPED sel));
   CInt (Zsum (map PASSED sel) + Zsum (map FAILED sel)
         + Zsum (map BROKEN sel) + Zsum (map SKIPPED sel));
   CStr ""; CStr ""].
Proof.
  intros sel. unfold TOTAL. rewrite <- !col_sum_Zsum.
  rewrite (consolidate_col_sum csv PASSED sPASSED rPASSED),
          (consolidate_col_sum csv FAILED sFAILED rFAILED),
          (consolidate_col_sum csv BROKEN sBROKEN rBROKEN),
          (consolidate_col_sum csv SKIPPED sSKIPPED rSKIPPED);
    try reflexivity.
  assert (E : col_sum totalTests (_consolidate_epics csv)
              = col_sum rPASSED (_consolidate_epics csv)
                + col_sum rFAILED (_consolidate_epics csv)
                + col_sum rBROKEN (_consolidate_epics csv)
                + col_sum rSKIPPED (_consolidate_epics csv)).
  { rewrite <- !col_sum_add. 
    assert (Hrow : forall row, In row (_consolidate_epics csv) ->
              totalTests row = rPASSED row + rFAILED row + rBROKEN row
                               + rSKIPPED row).
    { intros row Hin. apply consolidate_In in Hin.
      destruct Hin as [g [_ ->]]. reflexivity. }
    induction (_consolidate_epics csv) as [|row t IH]; simpl; trivial.
    rewrite (Hrow row (or_introl eq_refl)), IH; [lia|].
    intros; apply Hrow; now right. }
  rewrite E.
  rewrite (consolidate_col_sum csv PASSED sPASSED rPASSED),
          (consolidate_col_sum csv FAILED sFAILED rFAILED),
          (consolidate_col_sum csv BROKEN sBROKEN rBROKEN),
          (consolidate_col_sum csv SKIPPED sSKIPPED rSKIPPED);
    reflexivity.
Qed.

(** ** Row keys *)

Lemma length_append (s1 s2 : string) :
  String.length (s1 ++ s2) = (String.length s1 + String.length s2)%nat.
Proof. induction s1 as [|a s1 IH]; simpl; [reflexivity | now rewrite IH]. Qed.

Lemma append_cancel_r (s1 s2 t : string) : s1 ++ t = s2 ++ t -> s1 = s2.
Proof.
  intros H.
  assert (Hlen : String.length s1 = String.length s2).
  { apply (f_equal String.length) in H. rewrite !length_append in H. lia. }
  revert s2 H Hlen. induction s1 as [|a s1 IH]; intros [|b s2] H Hlen;
    try discriminate; trivial.
  simpl in H. injection H as -> H. f_equal. apply IH; trivial.
  simpl in Hlen. lia.
Qed.

Lemma substring_whole (s : string) : substring 0 (String.length s) s = s.
Proof. induction s as [|a s IH]; simpl; [reflexivity | now rewrite IH]. Qed.

Lemma substring_append (x s : string) :
  substring (String.length x) (String.length s) (x ++ s) = s.
Proof. induction x as [|a x IH]; simpl; [apply substring_whole | exact IH]. Qed.

Lemma has_suffix_append (suffix x : string) :
  has_suffix suffix (x ++ suffix) = true.
Proof.
  unfold has_suffix. rewrite length_append.
  replace (String.length x + String.length suffix - String.length suffix)%nat
    with (String.length x) by lia.
  rewrite substring_append, String.eqb_refl. simpl.
  apply Nat.leb_le. lia.
Qed.

Lemma fallback_keys_differ (s : string) :
  s ++ No_EPIC_Tagged <> Test_Cases_Not_Tagged.
Proof.
  intros H.
  assert (Hs : has_suffix No_EPIC_Tagged Test_Cases_Not_Tagged = true)
    by (rewrite <- H; apply has_suffix_append).
  vm_compute in Hs. discriminate.
Qed.

Lemma consolidated_list_keys (df : list TestRecord) :
  map sEpic (consolidated_list df) =
  (group_keys Epic (epic_rows df)
   ++ map (fun k => (k ++ No_EPIC_Tagged)%string)
        (group_keys Story (story_only_rows df))
   ++ (if empty (untagged_rows df) then [] else [Test_Cases_Not_Tagged]))%list.
Proof.
  unfold consolidated_list. rewrite consolidated_stories_if.
  unfold consolidated_epics, consolidated_stories, groupby_sum.
  rewrite !map_app, !map_map. simpl. rewrite map_id.
  destruct (empty (untagged_rows df)); reflexivity.
Qed.

(** X4: when no Epic of the input is named "Test Cases Not Tagged" or ends
    with " - No EPIC Tagged", no two rows of the table have the same key. *)
Theorem row_keys_distinct (df : list TestRecord) :
  forallb epic_is_plain df = true ->
  NoDup (map rEpic (_consolidate_epics df)).
Proof.
  intros Hplain. rewrite forallb_forall in Hplain.
  unfold _consolidate_epics, sort_values.
  apply Permutation_NoDup with
    (map rEpic (map add_metrics (consolidated_list df))).
  { apply Permutation_map, Permutation_sym, stable_sort_perm. }
  rewrite map_map. change (fun x => rEpic (add_metrics x)) with sEpic.
  rewrite consolidated_list_keys.
  assert (Hepic : forall e, In e (group_keys Epic (epic_rows df)) ->
            e <> Test_Cases_Not_Tagged /\
            forall s, e <> s ++ No_EPIC_Tagged).
  { intros e He. apply group_keys_In in He. destruct He as [r [Hr Hk]].
    apply filter_In in Hr. destruct Hr as [Hr _].
    pose proof (Hplain r Hr) as Hp. unfold epic_is_plain in Hp.
    rewrite Hk in Hp. apply andb_prop in Hp. destruct Hp as [H1 H2].
    split.
    - intros ->. now rewrite String.eqb_refl in H1.
    - intros s ->. now rewrite has_suffix_append in H2. }
  apply NoDup_app; [apply group_keys_NoDup | apply NoDup_app |].
  - apply NoDup_map_injective; [|apply group_keys_NoDup].
    intros a b. apply append_cancel_r.
  - destruct (empty (untagged_rows df)); repeat constructor. intros [].
  - intros k Hk Hin. apply in_map_iff in Hk. destruct Hk as [s [<- _]].
    destruct (empty (untagged_rows df)); [contradiction|].
    destruct Hin as [Hin|[]]. symmetry in Hin.
    exact (fallback_keys_differ s Hin).
  - intros e He Hin. destruct (Hepic e He) as [H1 H2].
    apply in_app_iff in Hin. destruct Hin as [Hin|Hin].
    + apply in_map_iff in Hin. destruct Hin as [s [Hs _]].
      apply (H2 s). now symmetry.
    + destruct (empty (untagged_rows df)); [contradiction|].
      destruct Hin as [Hin|[]]. now apply H1.
Qed.

Lemma row_keys_distinct_witness :
  NoDup (map rEpic (_consolidate_epics (mixed_df ++ fallback_df)%list)).
Proof.
  apply (row_keys_distinct (mixed_df ++ fallback_df)%list).
  vm_compute. reflexivity.
Defined.

(** Otherwise two rows can carry one key: an Epic named
    "S1 - No EPIC Tagged" and the untagged Story "S1" give two rows. *)
Lemma row_keys_can_clash :
  map rEpic (_consolidate_epics clash_df) =
  ["S1 - No EPIC Tagged"; "S1 - No EPIC Tagged"].
Proof. vm_compute. reflexivity. Qed.

(** ** Status and pass rate *)

Lemma fge_trans (a b c : float) :
  fge a b = true -> fge b c = true -> fge a c = true.
Proof.
  destruct a, b, c; simpl; try discriminate; trivial.
  rewrite !Qle_bool_iff. intros H1 H2. now apply Qle_trans with q0.
Qed.

Lemma status_rank_values :
  status_rank Acceptable = 0%nat /\ status_rank Maintenance_Advised = 1%nat /\
  status_rank Review_Required = 2%nat.
Proof. repeat split. Qed.

Lemma determine_status_monotone (a b : float) :
  fge a b = true ->
  (status_rank (_determine_status a) <= status_rank (_determine_status b))%nat.
Proof.
  intros Hab. unfold _determine_status.
  destruct (fge b (of_int 95)) eqn:Hb95.
  - rewrite (fge_trans _ _ _ Hab Hb95). apply Nat.le_refl.
  - destruct (fge b (of_int 80)) eqn:Hb80.
    + rewrite (fge_trans _ _ _ Hab Hb80).
      destruct (fge a (of_int 95)); vm_compute; lia.
    + destruct (fge a (of_int 95)); [vm_compute; lia|].
      destruct (fge a (of_int 80)); vm_compute; lia.
Qed.

(** X5: of two rows of the table, the one with the higher pass rate never has
    the worse status (Acceptable before Maintenance Advised before Review
    Required). *)
Theorem higher_rate_no_worse_status (df : list TestRecord) (r1 r2 : Row) :
  In r1 (_consolidate_epics df) ->
  In r2 (_consolidate_epics df) ->
  fge (passRate r1) (passRate r2) = true ->
  (status_rank (status r1) <= status_rank (status r2))%nat.
Proof.
  intros H1 H2 Hge.
  rewrite (consolidate_status df r1 H1), (consolidate_status df r2 H2).
  now apply determine_status_monotone.
Qed.

Lemma higher_rate_no_worse_status_witness :
  (status_rank (status (mkRow "Checkout" 94996 5004 0 0 100000 (Fin 95)
                          Acceptable))
   <= status_rank (status (mkRow "Search" 79996 20004 0 0 100000 (Fin 80)
                             Maintenance_Advised)))%nat.
Proof.
  apply (higher_rate_no_worse_status nearly_df).
  - vm_compute. now left.
  - vm_compute. right. now left.
  - reflexivity.
Defined.

Lemma exact_rate_all (t : Z) : 0 < t -> round2 (exact_rate t t) = Fin 100.
Proof.
  intros Ht. unfold exact_rate, of_int, fdiv.
  rewrite inject_Z_nonzero by lia. cbv beta iota delta [fmul].
  assert (E : Qred (inject_Z t / inject_Z t) = Qred 1).
  { apply Qred_complete. apply Qmult_inv_r.
    intros H. unfold Qeq in H. simpl in H. lia. }
  rewrite E. reflexivity.
Qed.

Lemma exact_rate_none (t : Z) : 0 < t -> round2 (exact_rate 0 t) = Fin 0.
Proof.
  intros Ht. unfold exact_rate, of_int, fdiv.
  rewrite inject_Z_nonzero by lia. cbv beta iota delta [fmul].
  assert (E : Qred (inject_Z 0 / inject_Z t) = Qred 0).
  { apply Qred_complete. unfold Qdiv. apply Qmult_0_l. }
  rewrite E. reflexivity.
Qed.

(** X6: a row with tests all of which passed has passRate 100 and is
    Acceptable; a row with tests none of which passed has passRate 0 and is
    Review Required. *)
Theorem all_or_none_passed (df : list TestRecord) (row : Row) :
  In row (_consolidate_epics df) ->
  0 < totalTests row ->
  (rPASSED row = totalTests row ->
   passRate row = Fin 100 /\ status row = Acceptable) /\
  (rPASSED row = 0 ->
   passRate row = Fin 0 /\ status row = Review_Required).
Proof.
  intros Hin Htot. apply consolidate_In in Hin. destruct Hin as [g [_ ->]].
  unfold add_metrics in *. cbn [rPASSED totalTests passRate status] in *.
  set (t := sPASSED g + sFAILED g + sBROKEN g + sSKIPPED g) in *.
  split; intros E; rewrite E.
  - rewrite (exact_rate_all t Htot). split; reflexivity.
  - rewrite (exact_rate_none t Htot). split; reflexivity.
Qed.

Lemma all_or_none_passed_witness :
  passRate (mkRow "S1 - No EPIC Tagged" 1 0 0 0 1 (Fin 100) Acceptable)
    = Fin 100 /\
  status (mkRow "S1 - No EPIC Tagged" 1 0 0 0 1 (Fin 100) Acceptable)
    = Acceptable.
Proof.
  assert (Hin : In (mkRow "S1 - No EPIC Tagged" 1 0 0 0 1 (Fin 100) Acceptable)
                   (_consolidate_epics fallback_df)) by (vm_compute; now left).
  refine (proj1 (all_or_none_passed fallback_df _ Hin _) _).
  - simpl. lia.
  - reflexivity.
Defined.

(** ** Colours of the image table *)

Lemma row_color_cells (r : Row) :
  row_color (row_cells r) = table_colors (status r).
Proof. reflexivity. Qed.

Lemma firstn_app_exact (A : Type) (l l' : list A) :
  firstn (List.length l) (l ++ l') = l.
Proof. induction l as [|x l IH]; simpl; [reflexivity | now rewrite IH]. Qed.

Lemma data_rows_of_final_df (self : TestAutomationAnalyzer) :
  firstn (List.length (consolidated_df self)) (values (final_df self)) =
  map row_cells (consolidated_df self).
Proof.
  rewrite final_df_values.
  rewrite <- (length_map row_cells (consolidated_df self)).
  apply firstn_app_exact.
Qed.

(** X7: in the image every row of the consolidated table is coloured by its
    status, light green for Acceptable, yellow for Maintenance Advised and
    light pink for Review Required, and the TOTAL row, the last of the cell
    rows, gets no colour. *)
Theorem rows_coloured_by_status (csv : list TestRecord) :
  exists t : Table,
    generate_epic_summary_table_plot column_labels_v7 (__init__ csv) = inr t /\
    List.length (cellText t) = S (List.length (facecolors t)) /\
    Forall2 (fun row colour =>
               (status row = Acceptable /\ colour = Some "lightgreen") \/
               (status row = Maintenance_Advised /\ colour = Some "yellow") \/
               (status row = Review_Required /\ colour = Some "lightpink"))
      (_consolidate_epics csv) (facecolors t).
Proof.
  eexists. split; [reflexivity|].
  cbn [facecolors cellText]. rewrite (data_rows_of_final_df (__init__ csv)).
  rewrite (final_df_values (__init__ csv)). cbn [consolidated_df __init__].
  rewrite map_map, length_app, !length_map. split.
  - simpl. lia.
  - assert (H : forall row, In row (_consolidate_epics csv) ->
              In (status row)
                 [Acceptable; Maintenance_Advised; Review_Required]).
    { intros row Hin. rewrite (consolidate_status csv row Hin).
      apply determine_status_values. }
    induction (_consolidate_epics csv) as [|row rows IH]; simpl; constructor.
    + rewrite row_color_cells.
      destruct (H row (or_introl eq_refl)) as [E|[E|[E|[]]]]; rewrite <- E;
        auto.
    + apply IH. intros; apply H; now right.
Qed.

(** ** The v5 aggregation *)

Lemma present_keys_epic_rows (df : list TestRecord) :
  present_keys Epic (epic_rows df) = present_keys Epic df.
Proof.
  unfold epic_rows, is_epic_row, notna.
  induction df as [|r df IH]; simpl; trivial.
  destruct (Epic r) eqn:E; simpl; rewrite ?E, IH; reflexivity.
Qed.

Lemma group_of_epic_rows (k : string) (df : list TestRecord) :
  group_of Epic k (epic_rows df) = group_of Epic k df.
Proof.
  unfold group_of, epic_rows, is_epic_row, notna, has_key.
  induction df as [|r df IH]; simpl; trivial.
  destruct (Epic r) eqn:E; simpl; rewrite ?E, IH; reflexivity.
Qed.

Lemma V5_consolidated_epic_rows (df : list TestRecord) :
  V5.consolidated (epic_rows df) = V5.consolidated df.
Proof.
  unfold V5.consolidated, group_keys. rewrite present_keys_epic_rows.
  apply map_ext. intros k. unfold V5.consolidated_row.
  now rewrite group_of_epic_rows.
Qed.

(** X8: the v5 aggregation takes into account only the records that have an
    Epic: the other records, whatever their Story and their counts, change
    none of its results. *)
Theorem v5_counts_only_epic_rows (df : list TestRecord) (table : list V5.Row) :
  V5._consolidate_epics df table <->
  V5._consolidate_epics (filter (fun r => notna (Epic r)) df) table.
Proof.
  unfold V5._consolidate_epics.
  change (filter (fun r => notna (Epic r)) df) with (epic_rows df).
  now rewrite V5_consolidated_epic_rows.
Qed.

Lemma col_sum_zero (A : Type) (col : A -> Z) (l : list A) :
  (forall x, In x l -> col x = 0) -> col_sum col l = 0.
Proof.
  induction l as [|x l IH]; simpl; intros H; trivial.
  rewrite (H x (or_introl eq_refl)), IH; [reflexivity|].
  intros; apply H; now right.
Qed.

Lemma filter_empty (A : Type) (p : A -> bool) (l : list A) :
  (forall x, In x l -> p x = false) -> filter p l = [].
Proof.
  induction l as [|x l IH]; simpl; intros H; trivial.
  rewrite (H x (or_introl eq_refl)). apply IH. intros; apply H; now right.
Qed.

(** X9: on a CSV in which every record has an Epic and no test has an unknown
    outcome, v5 and v7 compute the same rows: every result of the v5
    aggregation, its UNKNOWN column left out, is a rearrangement of the v7
    table. *)
Theorem v7_agrees_with_v5 (df : list TestRecord) (table : list V5.Row) :
  forallb (fun r => notna (Epic r) && (UNKNOWN r =? 0)) df = true ->
  V5._consolidate_epics df table ->
  Permutation (map drop_unknown table) (_consolidate_epics df).
Proof.
  intros Hdf [Hperm _]. rewrite forallb_forall in Hdf.
  assert (Hep : forall r, In r df -> is_epic_row r = true).
  { intros r Hr. apply Hdf in Hr. apply andb_prop in Hr. tauto. }
  assert (Hun : forall r, In r df -> UNKNOWN r = 0).
  { intros r Hr. apply Hdf in Hr. apply andb_prop in Hr.
    destruct Hr as [_ Hr]. now apply Z.eqb_eq. }
  assert (Hlist : consolidated_list df = groupby_sum Epic df).
  { unfold consolidated_list, consolidated_epics, story_only_rows,
      untagged_rows, epic_rows.
    rewrite (filter_all _ is_epic_row df Hep).
    rewrite (filter_empty _ is_story_only_row df),
            (filter_empty _ is_untagged_row df).
    - simpl. now rewrite app_nil_r.
    - intros r Hr. apply Hep in Hr. unfold is_epic_row, notna in Hr.
      unfold is_untagged_row. destruct (Epic r); [reflexivity|discriminate].
    - intros r Hr. apply Hep in Hr. unfold is_epic_row, notna in Hr.
      unfold is_story_only_row. destruct (Epic r); [reflexivity|discriminate]. }
  apply Permutation_trans with (map drop_unknown (V5.consolidated df)).
  { now apply Permutation_map. }
  unfold _consolidate_epics, sort_values. rewrite Hlist.
  apply Permutation_trans with (map add_metrics (groupby_sum Epic df));
    [|apply Permutation_sym, stable_sort_perm].
  unfold V5.consolidated, groupby_sum. rewrite !map_map.
  erewrite map_ext; [apply Permutation_refl|].
  intros k. unfold V5.consolidated_row, drop_unknown, add_metrics, sum_rows.
  cbn.
  assert (E : col_sum UNKNOWN (group_of Epic k df) = 0).
  { apply col_sum_zero. intros r Hr. apply Hun.
    exact (group_of_incl Epic k df r Hr). }
  rewrite E, Z.add_0_r. reflexivity.
Qed.

Lemma v7_agrees_with_v5_witness :
  Permutation
    (map drop_unknown
       [ V5.mkRow "Checkout" 94996 5004 0 0 0 100000 (Fin 95) Acceptable;
         V5.mkRow "Search" 79996 20004 0 0 0 100000 (Fin 80)
           Maintenance_Advised ])
    (_consolidate_epics nearly_df).
Proof.
  apply (v7_agrees_with_v5 nearly_df).
  - vm_compute. reflexivity.
  - split.
    + vm_compute. apply Permutation_refl.
    + repeat constructor.
Defined.

(** ** Column widths *)




(** ** The files of a run *)

Lemma read_write (path p : string) (a : Artifact) (fs : FileSystem) :
  read path (write p a fs) =
  if String.eqb p path then Some a else read path fs.
Proof. unfold read, write. rewrite fold_left_app. reflexivity. Qed.

Lemma default_paths_differ (date_suffix : string) :
  let png := "IH_Epic_Summary_Table_cf_v1-0_" ++ date_suffix ++ ".png" in
  let xlsx := "IH_Epic_Summary_XL_cf_v1-0_" ++ date_suffix ++ ".xlsx" in
  String.eqb xlsx png = false /\
  String.eqb sPBI_Report_Source_Path png = false /\
  String.eqb sPBI_Report_Source_Path xlsx = false.
Proof. repeat split. Qed.

(** X11: with the default file names a run leaves three files, whatever the
    date: the image, the dated sheet and the sheet for PowerBI, the two
    sheets with the same content; no other file is touched. *)
Theorem files_of_a_run (date_suffix : string) (csv : list TestRecord)
    (fs : FileSystem) :
  exists (fs' : FileSystem) (t : Table) (sheet : list (list Cell)),
    main column_labels_v7 date_suffix csv fs = (None, fs') /\
    read ("IH_Epic_Summary_Table_cf_v1-0_" ++ date_suffix ++ ".png") fs'
      = Some (Png t) /\
    read ("IH_Epic_Summary_XL_cf_v1-0_" ++ date_suffix ++ ".xlsx") fs'
      = Some (Xlsx "EPIC Summary" sheet) /\
    read "IH_Epic_ALLURE_Summary_cf_2025.xlsx" fs'
      = Some (Xlsx "EPIC Summary" sheet) /\
    forall path,
      path <> "IH_Epic_Summary_Table_cf_v1-0_" ++ date_suffix ++ ".png" ->
      path <> "IH_Epic_Summary_XL_cf_v1-0_" ++ date_suffix ++ ".xlsx" ->
      path <> "IH_Epic_ALLURE_Summary_cf_2025.xlsx" ->
      read path fs' = read path fs.
Proof.
  destruct (default_paths_differ date_suffix) as (D1 & D2 & D3).
  eexists. eexists. eexists. split; [|split; [|split; [|split]]].
  - unfold main, save_epic_summary_table_plot, save_epic_summary_to_excel,
      generate_epic_summary_table_plot.
    rewrite final_df_columns. simpl negb. cbv iota. reflexivity.
  - rewrite !read_write, D2, D1, String.eqb_refl. reflexivity.
  - rewrite !read_write, D3, String.eqb_refl. reflexivity.
  - rewrite !read_write. unfold sPBI_Report_Source_Path.
    rewrite String.eqb_refl. reflexivity.
  - intros path H1 H2 H3. rewrite !read_write.
    unfold sPBI_Report_Source_Path.
    apply not_eq_sym, String.eqb_neq in H1, H2, H3.
    now rewrite H1, H2, H3.
Qed.

(** ** The v5 report *)

(** X12: the v5 report of a table: the image "epic_summary_table.png" and the
    sheet "epic_summary.xlsx" hold the same rows, the rows of the table
    followed by TOTAL with the sums of the five outcome columns and of
    totalTests; with the eight labels of v7 instead of its nine the run
    stops with the ValueError and writes nothing. *)
Theorem v5_report (csv : list TestRecord) (table : list V5.Row)
    (fs : FileSystem) :
  (exists t : Table,
     V5Report.main column_labels_v5 csv table fs =
       (None,
        (fs ++ [("epic_summary_table.png", Png t);
                ("epic_summary.xlsx",
                 Xlsx "EPIC Summary"
                   (map CStr V5Report.consolidated_columns :: cellText t))])%list)
     /\
     cellText t =
       (map V5Report.row_cells table
        ++ [[CStr "TOTAL"; CInt (Zsum (map V5.rPASSED table));
             CInt (Zsum (map V5.rFAILED table));
             CInt (Zsum (map V5.rBROKEN table));
             CInt (Zsum (map V5.rSKIPPED table));
             CInt (Zsum (map V5.rUNKNOWN table));
             CInt (Zsum (map V5.totalTests table)); CStr ""; CStr ""]])%list) /\
  V5Report.main column_labels_v7 csv table fs =
    (Some (ValueError "Mismatch between DataFrame columns and column labels"),
     fs).
Proof.
  split; [|reflexivity].
  set (self := V5Report.mkAnalyzer csv table).
  exists (mkTable (values (V5Report.final_df self)) column_labels_v5
            (map row_color
               (firstn (List.length table) (values (V5Report.final_df self))))).
  split.
  - unfold V5Report.main, V5Report.save_epic_summary_table_plot,
      V5Report.save_epic_summary_to_excel,
      V5Report.generate_epic_summary_table_plot, write.
    fold self. cbn [negb Nat.eqb List.length columns V5Report.final_df
                     pd_concat V5Report.to_frame column_labels_v5].
    change (negb (Nat.eqb (List.length V5Report.consolidated_columns) 9))
      with false.
    cbv beta iota. rewrite <- app_assoc. reflexivity.
  - simpl. now rewrite !col_sum_Zsum.
Qed.

(** ** Ties in the sort *)

Section Stability.
Variable A : Type.
Variable le : A -> A -> bool.
Hypothesis le_trans :
  forall x y z, le x y = true -> le y z = true -> le x z = true.

Lemma insert_sorted_tied (z x : A) (l : list A) :
  filter (tied le z) (insert_sorted le x l) = filter (tied le z) (x :: l).
Proof.
  induction l as [|y l IH]; simpl; trivial.
  destruct (le x y) eqn:Hxy; simpl; trivial.
  rewrite IH. simpl.
  destruct (tied le z x) eqn:Hzx, (tied le z y) eqn:Hzy; trivial.
  exfalso. unfold tied in Hzx, Hzy.
  apply andb_prop in Hzx, Hzy. destruct Hzx as [_ Hxz], Hzy as [Hzy _].
  rewrite (le_trans _ _ _ Hxz Hzy) in Hxy. discriminate.
Qed.

Lemma stable_sort_tied (z : A) (l : list A) :
  filter (tied le z) (stable_sort le l) = filter (tied le z) l.
Proof.
  induction l as [|x l IH]; simpl; trivial.
  rewrite insert_sorted_tied. simpl. now rewrite IH.
Qed.
End Stability.

Lemma row_le_trans (x y z : Row) :
  row_le x y = true -> row_le y z = true -> row_le x z = true.
Proof.
  rewrite !row_le_in_report_order. apply in_report_order_trans.
Qed.

(** X13: rows that tie, with the same status and the same pass rate, stay in
    the order in which the aggregation built them: the Epic rows by key,
    then the Story rows by key, then the row of the untagged tests. *)
Theorem ties_keep_order (df : list TestRecord) (row : Row) :
  filter (tied row_le row) (_consolidate_epics df) =
  filter (tied row_le row) (map add_metrics (consolidated_list df)).
Proof.
  unfold _consolidate_epics, sort_values.
  apply stable_sort_tied. exact row_le_trans.
Qed.

(** ** Keys of the v5 table *)

(** X14: every result of the v5 aggregation has one row per Epic of the input
    and no two rows with the same key. *)
Theorem v5_one_row_per_epic (df : list TestRecord) (table : list V5.Row) :
  V5._consolidate_epics df table ->
  NoDup (map V5.rEpic table) /\
  forall e, In e (map V5.rEpic table) <->
            exists r, In r df /\ Epic r = Some e.
Proof.
  intros [Hperm _].
  assert (Hkeys : Permutation (map V5.rEpic table) (group_keys Epic df)).
  { apply Permutation_trans with (map V5.rEpic (V5.consolidated df)).
    - now apply Permutation_map.
    - unfold V5.consolidated. rewrite map_map. simpl. rewrite map_id.
      apply Permutation_refl. }
  split.
  - apply Permutation_NoDup with (group_keys Epic df).
    + now apply Permutation_sym.
    + apply group_keys_NoDup.
  - intros e. rewrite <- group_keys_In.
    split; apply Permutation_in; [exact Hkeys | now apply Permutation_sym].
Qed.

Lemma v5_one_row_per_epic_witness :
  NoDup (map V5.rEpic
           [ V5.mkRow "Billing" 1 1 0 0 0 2 (Fin 50) Review_Required;
             V5.mkRow "Login" 2 0 0 1 1 4 (Fin 50) Review_Required ]).
Proof.
  apply (v5_one_row_per_epic mixed_df). split.
  - vm_compute. apply Permutation_refl.
  - repeat constructor.
Defined.
